(** * cerberus-go-client: the AWS-identity authenticator (auth/aws.go)

    A shallow embedding of [AWSAuth] and its methods.  The Go methods
    mutate the receiver and talk to the outside world (clock, HTTP
    transport, key-management service); here they are functions in a
    state monad over the receiver and a [World] that records every
    request sent.  Whatever the Go standard library, the AWS SDK and the
    remote service decide is read from an [Env] of oracles, so every
    theorem holds for all of their behaviours. *)

From Stdlib Require Import ZArith String Ascii List Bool Lia.
From stdpp Require Import base option gmap strings pretty list.

Local Open Scope string_scope.
Local Open Scope Z_scope.

(** ** Data model *)

(** [http.Header] is [map[string][]string].  The keys this file uses
    ([X-Vault-Token], [X-Cerberus-Client], [Content-Type]) are already in
    canonical MIME form, so [Set], [Get] and [Del] address them as they
    are written. *)
Abbreviation Header := (gmap string (list string)).

Definition Header_Set (key value : string) (h : Header) : Header :=
  <[key := [value]]> h.

Definition Header_Del (key : string) (h : Header) : Header :=
  delete key h.

Definition Header_Get (key : string) (h : Header) : string :=
  match h !! key with
  | Some (v :: _) => v
  | _ => ""
  end.

(** The fields of [url.URL] that [url.Parse] fills for an absolute
    hierarchical URL. *)
Record URL := mkURL {
  Scheme : string;
  Host : string;
  Path : string;
  RawQuery : string;
  Fragment : string
}.

(** [u.Path = p] on a copy of [u]. *)
Definition URL_with_Path (u : URL) (p : string) : URL :=
  {| Scheme := Scheme u; Host := Host u; Path := p;
     RawQuery := RawQuery u; Fragment := Fragment u |}.

Definition nonempty (s : string) : bool :=
  match s with EmptyString => false | String _ _ => true end.

Definition starts_with_slash (s : string) : bool :=
  match s with String "/" _ => true | _ => false end.

(** The [String] method of [url.URL] on those fields:
    [scheme://host/path?query#fragment], each part printed only when it
    is set (no character of the paths used here needs escaping). *)
Definition URL_String (u : URL) : string :=
  (if nonempty (Scheme u) then Scheme u +:+ ":" else "") +:+
  (if (nonempty (Scheme u) || nonempty (Host u)) &&
      (nonempty (Host u) || nonempty (Path u)) then "//" else "") +:+
  Host u +:+
  (if nonempty (Path u) && negb (starts_with_slash (Path u)) && nonempty (Host u)
   then "/" else "") +:+
  Path u +:+
  (if nonempty (RawQuery u) then "?" +:+ RawQuery u else "") +:+
  (if nonempty (Fragment u) then "#" +:+ Fragment u else "").

Record Request := mkRequest {
  Method : string;
  ReqURL : string;
  ReqBody : string;
  ReqHeader : Header
}.

Record Response := mkResponse {
  StatusCode : Z;
  Body : string
}.

Definition StatusOK : Z := 200.
Definition StatusNoContent : Z := 204.
Definition StatusUnauthorized : Z := 401.
Definition StatusForbidden : Z := 403.

(** Go's [error] values: the two sentinel errors of package [api]
    ([api.ErrorUnauthorized], [api.ErrorUnauthenticated]; the package is
    not among the sources) and the errors built by [fmt.Errorf], which
    carry their message.  A library error is the message it prints. *)
Inductive error : Type :=
| ErrorUnauthorized
| ErrorUnauthenticated
| Errorf (msg : string).

(** How a call ends: it returns, or the goroutine panics. *)
Inductive outcome (A : Type) : Type :=
| Returns (x : A)
| Panics.

Arguments Returns {A} x.
Arguments Panics {A}.

(** [kmsiface.KMSAPI], of which only [Decrypt] is called: ciphertext blob
    to plaintext, or the error of the key-management service. *)
Record KMSAPI := mkKMS {
  Decrypt : string -> string + string
}.

Record AWSAuth := mkAWSAuth {
  token : string;
  region : string;
  roleARN : string;
  expiry : Z;
  baseURL : URL;
  headers : Header;
  kmsClient : KMSAPI
}.

Record awsAuthBody := mkAwsAuthBody {
  PrincipalArn : string;
  Region : string
}.

Record iamIntermediateResp := mkIamIntermediateResp {
  AuthData : string
}.

(** Modelled from the spec: [api.IAMAuthResponse] is declared in package
    [api], which is not among the sources.  The spec gives the decrypted
    credential envelope as a token, a sequence of policies, a lease
    duration in seconds, a renewable flag and a metadata mapping from
    string to string; [authenticate] reads [Token] and [Duration], the
    latter a Go [int] of 64 bits. *)
Record IAMAuthResponse := mkIAMAuthResponse {
  Token : string;
  Policies : list string;
  Metadata : gmap string string;
  Duration : Z;
  Renewable : bool
}.

(** ** Time

    A [time.Time] is an instant, in nanoseconds counted from the zero
    [Time]; a [time.Duration] is a signed 64-bit count of nanoseconds,
    and its arithmetic wraps. *)
Definition wrap64 (z : Z) : Z := (z + 2 ^ 63) mod 2 ^ 64 - 2 ^ 63.

Definition Second : Z := 1000000000.

Definition Duration_mul (a b : Z) : Z := wrap64 (a * b).

Definition Time_Add (t d : Z) : Z := t + d.

Definition Time_Before (t u : Z) : bool := t <? u.

(** ** The outside world *)

(** What has been observed so far: the clock, the HTTP requests handed to
    the transport (oldest first) and the blobs handed to the
    key-management client. *)
Record World := mkWorld {
  now : Z;
  sent : list Request;
  decrypted : list string
}.

(** The oracles.  [ValidateURL] belongs to package [utils] and
    [ClientHeader] to package [api]; the rest is the Go standard library,
    the AWS SDK and the network.  [NewSession] gives the error of
    [session.NewSession], with which comes a nil session.
    [Marshal_string s] is the string literal [encoding/json] writes for
    [s]: the quotes, its escapes, and U+FFFD where [s] is not UTF-8. *)
Record Env := mkEnv {
  ClientHeader : string;
  Getenv : string -> string;
  ValidateURL : string -> string + URL;
  NewSession : string -> option string;
  IAMInfo : string -> string + string;
  kms_New : string -> string -> KMSAPI;
  NewRequest_err : string -> string -> option string;
  RoundTrip : World -> Request -> string + Response;
  Latency : World -> Z;
  Decode_iamIntermediateResp : string -> string + iamIntermediateResp;
  base64_DecodeString : string -> string + string;
  Unmarshal_IAMAuthResponse : string -> string + IAMAuthResponse;
  Marshal_string : string -> string
}.

(** ** Library functions with a fixed meaning *)

Definition dquote : ascii := "034"%char.
Definition newline : ascii := "010"%char.

(** [s] between double quotes. *)
Definition quoted (s : string) : string :=
  String dquote (s +:+ String dquote "").

(** The members of a JSON object, each a name and the text of its value,
    in order.  The names are struct tags of letters and underscores, which
    [encoding/json] writes between quotes as they are. *)
Fixpoint json_members (fs : list (string * string)) : string :=
  match fs with
  | [] => ""
  | (k, v) :: rest =>
    quoted k +:+ ":" +:+ v +:+
    match rest with [] => "" | _ :: _ => "," +:+ json_members rest end
  end.

Definition json_object (fs : list (string * string)) : string :=
  "{" +:+ json_members fs +:+ "}".

(** The struct tags of [awsAuthBody]: both fields are written, in
    declaration order; neither tag has [omitempty].  Each value is the
    string literal [encoding/json] writes for the field. *)
Definition awsAuthBody_fields (E : Env) (b : awsAuthBody) : list (string * string) :=
  [("iam_principal_arn", Marshal_string E (PrincipalArn b));
   ("region", Marshal_string E (Region b))].

(** [json.NewEncoder(body).Encode(v)] writes the value and a newline. *)
Definition Encode_awsAuthBody (E : Env) (b : awsAuthBody) : string :=
  json_object (awsAuthBody_fields E b) +:+ String newline "".

Fixpoint strip_prefix (p s : string) : option string :=
  match p, s with
  | EmptyString, _ => Some s
  | String a p', String b s' =>
    if Ascii.eqb a b then strip_prefix p' s' else None
  | String _ _, EmptyString => None
  end.

(** [strings.Replace(s, old, new, 1)] for a non-empty [old]. *)
Fixpoint Replace_first (s old new : string) : string :=
  match strip_prefix old s with
  | Some rest => new +:+ rest
  | None =>
    match s with
    | EmptyString => ""
    | String c s' => String c (Replace_first s' old new)
    end
  end.

(** ** The monad of the methods

    A method runs on the receiver and the world and may change both. *)
Record State := mkState {
  self : AWSAuth;
  world : World
}.

Definition M (A : Type) : Type := State -> A * State.

Definition ret {A} (x : A) : M A := fun s => (x, s).

Definition bind {A B} (m : M A) (k : A -> M B) : M B :=
  fun s => let (x, s') := m s in k x s'.

Notation "x <- m ;; k" := (bind m (fun x => k))
  (at level 100, m at next level, right associativity).
Notation "m ;; k" := (bind m (fun _ => k))
  (at level 100, right associativity).

(** A body with early error returns: [inl e] is [return e]. *)
Definition Op (A : Type) : Type := M (error + A).

Definition bindE {A B} (m : Op A) (k : A -> Op B) : Op B :=
  r <- m ;;
  match r with
  | inl e => ret (inl e)
  | inr x => k x
  end.

Notation "x <-? m ;; k" := (bindE m (fun x => k))
  (at level 100, m at next level, right associativity).

Definition throw {A} (e : error) : Op A := ret (inl e).

(** [if err != nil { return wrap(err) }] *)
Definition check {A} (r : string + A) (wrap : string -> error) : Op A :=
  match r with
  | inl msg => throw (wrap msg)
  | inr x => ret (inr x)
  end.

(** The error a body returned, [nil] when it ran to its end. *)
Definition returned (m : Op unit) : M (option error) :=
  r <- m ;;
  match r with
  | inl e => ret (Some e)
  | inr _ => ret None
  end.

Definition getSelf : M AWSAuth := fun s => (self s, s).

Definition modifySelf (f : AWSAuth -> AWSAuth) : M unit :=
  fun s => (tt, {| self := f (self s); world := world s |}).

Definition set_token (t : string) (a : AWSAuth) : AWSAuth :=
  {| token := t; region := region a; roleARN := roleARN a;
     expiry := expiry a; baseURL := baseURL a; headers := headers a;
     kmsClient := kmsClient a |}.

Definition set_expiry (t : Z) (a : AWSAuth) : AWSAuth :=
  {| token := token a; region := region a; roleARN := roleARN a;
     expiry := t; baseURL := baseURL a; headers := headers a;
     kmsClient := kmsClient a |}.

Definition set_headers (h : Header) (a : AWSAuth) : AWSAuth :=
  {| token := token a; region := region a; roleARN := roleARN a;
     expiry := expiry a; baseURL := baseURL a; headers := h;
     kmsClient := kmsClient a |}.

(** [time.Now()] reads the clock. *)
Definition time_Now : M Z := fun s => (now (world s), s).

Definition Request_with_Header (r : Request) (h : Header) : Request :=
  {| Method := Method r; ReqURL := ReqURL r; ReqBody := ReqBody r;
     ReqHeader := h |}.

Section Methods.

Context (E : Env).

(** After an exchange with the outside the clock has moved on. *)
Definition elapse (w : World) : Z := now w + Latency E w.

(** [http.NewRequest(method, url, body)] fails when the URL string does
    not parse; the new request has no header yet. *)
Definition http_NewRequest (method url body : string) : string + Request :=
  match NewRequest_err E method url with
  | Some msg => inl msg
  | None => inr {| Method := method; ReqURL := url; ReqBody := body;
                   ReqHeader := ∅ |}
  end.

(** [cl.Do(req)]: the request goes out once and is answered by a response
    or a transport error. *)
Definition http_Do (req : Request) : M (string + Response) :=
  fun s =>
    let w := world s in
    (RoundTrip E w req,
     {| self := self s;
        world := {| now := elapse w; sent := sent w ++ [req];
                    decrypted := decrypted w |} |}).

(** [a.kmsClient.Decrypt(input)] *)
Definition kms_Decrypt (blob : string) : M (string + string) :=
  fun s =>
    let w := world s in
    (Decrypt (kmsClient (self s)) blob,
     {| self := self s;
        world := {| now := elapse w; sent := sent w;
                    decrypted := decrypted w ++ [blob] |} |}).

(** *** NewAWSAuth

    The error of [session.NewSession] is tested only after the session
    has been used: when it is not nil the session is nil, and
    [ec2metadata.New(sess)] panics on it, so the test further down is
    never reached with an error. *)
Definition NewAWSAuth (cerberusURL region : string) : outcome (error + AWSAuth) :=
  let cerberusURL :=
    if nonempty (Getenv E "CERBERUS_URL") then Getenv E "CERBERUS_URL"
    else cerberusURL in
  if (String.length region =? 0)%nat then
    Returns (inl (Errorf "Region should not be nil"))
  else if (String.length cerberusURL =? 0)%nat then
    Returns (inl (Errorf "Cerberus URL cannot be empty"))
  else
    match ValidateURL E cerberusURL with
    | inl err => Returns (inl (Errorf err))
    | inr parsedURL =>
      let err := NewSession E region in
      match err with
      | Some _ => Panics
      | None =>
        match IAMInfo E region with
        | inl e => Returns (inl (Errorf e))
        | inr InstanceProfileArn =>
          let iamRole :=
            Replace_first InstanceProfileArn ":instance-profile/" ":role/" in
          match err with
          | Some msg =>
            Returns (inl (Errorf ("Unable to create AWS session: " +:+ msg)))
          | None =>
            Returns
              (inr {| token := ""; region := region; roleARN := iamRole;
                      expiry := 0; baseURL := parsedURL;
                      headers := <["X-Cerberus-Client" := [ClientHeader E]]>
                                   (<["Content-Type" := ["application/json"]]> ∅);
                      kmsClient := kms_New E region iamRole |})
          end
        end
      end
    end.

(** *** GetURL *)
Definition GetURL : M URL := a <- getSelf ;; ret (baseURL a).

(** *** IsAuthenticated *)
Definition IsAuthenticated : M bool :=
  a <- getSelf ;;
  t <- time_Now ;;
  ret ((0 <? String.length (token a))%nat && Time_Before t (expiry a)).

(** *** authenticate *)
Definition authRequest (a : AWSAuth) : Request :=
  {| Method := "POST";
     ReqURL := URL_String (URL_with_Path (baseURL a) "/v2/auth/iam-principal");
     ReqBody := Encode_awsAuthBody E {| PrincipalArn := ""; Region := region a |};
     ReqHeader := headers a |}.

Definition authenticate_body : Op unit :=
  a <- getSelf ;;
  let builtURL := URL_with_Path (baseURL a) "/v2/auth/iam-principal" in
  let body := Encode_awsAuthBody E {| PrincipalArn := ""; Region := region a |} in
  req <-? check (http_NewRequest "POST" (URL_String builtURL) body)
            (fun err => Errorf ("Problem while performing request to Cerberus: " +:+ err)) ;;
  let req := Request_with_Header req (headers a) in
  sentReq <- http_Do req ;;
  resp <-? check sentReq
             (fun err => Errorf ("Problem while performing request to Cerberus: " +:+ err)) ;;
  if (StatusCode resp =? StatusUnauthorized) || (StatusCode resp =? StatusForbidden)
  then throw ErrorUnauthorized
  else if negb (StatusCode resp =? StatusOK)
  then throw (Errorf ("Error while trying to authenticate. Got HTTP response code "
                      +:+ pretty (StatusCode resp)))
  else
    intermediate <-? check (Decode_iamIntermediateResp E (Body resp))
                       (fun _ => Errorf "Error while trying to parse response from Cerberus: <nil>") ;;
    binaryData <-? check (base64_DecodeString E (AuthData intermediate))
                     (fun err => Errorf ("Invalid authentication data returned from Cerberus: " +:+ err)) ;;
    result <- kms_Decrypt binaryData ;;
    plaintext <-? check result
                    (fun err => Errorf ("Error while decrypting response: " +:+ err)) ;;
    r <-? check (Unmarshal_IAMAuthResponse E plaintext)
            (fun err => Errorf ("Error while parsing decrypted response: " +:+ err)) ;;
    modifySelf (set_token (Token r)) ;;
    modifySelf (fun a => set_headers (Header_Set "X-Vault-Token" (Token r) (headers a)) a) ;;
    t <- time_Now ;;
    modifySelf (set_expiry (Time_Add t (Duration_mul (Duration r) Second))) ;;
    ret (inr tt).

Definition authenticate : M (option error) := returned authenticate_body.

(** *** GetToken *)
Definition GetToken : M (string * option error) :=
  live <- IsAuthenticated ;;
  if live then
    a <- getSelf ;; ret (token a, None)
  else
    err <- authenticate ;;
    a <- getSelf ;; ret (token a, err).

(** *** Refresh *)
Definition Refresh : M (option error) := authenticate.

(** Modelled from the spec: the package-level [Logout] of auth.go, which
    the [Logout] method calls, is not among the sources (only its tests
    are).  The spec gives it as: DELETE [{endpoint}/v1/auth] with the given
    headers; success is exactly HTTP 204, anything else, other 2xx codes
    included, is a failure.  The text of its errors is not fixed there. *)
Definition Logout (builtURL : URL) (hdrs : Header) : M (option error) :=
  let builtURL := URL_with_Path builtURL "/v1/auth" in
  r <- http_Do {| Method := "DELETE"; ReqURL := URL_String builtURL;
                  ReqBody := ""; ReqHeader := hdrs |} ;;
  match r with
  | inl err => ret (Some (Errorf ("Problem while performing request to Cerberus: " +:+ err)))
  | inr resp =>
    if StatusCode resp =? StatusNoContent then ret None
    else ret (Some (Errorf ("Unable to log out. Got HTTP response code "
                            +:+ pretty (StatusCode resp))))
  end.

(** *** Logout (the method of [AWSAuth]) *)
Definition AWSAuth_Logout : M (option error) :=
  a <- getSelf ;;
  err <- Logout (baseURL a) (headers a) ;;
  match err with
  | Some e => ret (Some e)
  | None =>
    modifySelf (set_token "") ;;
    modifySelf (fun a => set_headers (Header_Del "X-Vault-Token" (headers a)) a) ;;
    ret None
  end.

(** *** GetHeaders *)
Definition GetHeaders : M (Header * option error) :=
  a <- getSelf ;; ret (headers a, None).

End Methods.

(** ** The states the methods leave behind *)

Definition after_Do (E : Env) (w : World) (req : Request) : World :=
  {| now := elapse E w; sent := sent w ++ [req]; decrypted := decrypted w |}.

Definition after_Decrypt (E : Env) (w : World) (blob : string) : World :=
  {| now := elapse E w; sent := sent w; decrypted := decrypted w ++ [blob] |}.

(** The three assignments that end [authenticate], made at instant [t]
    with the envelope [r]. *)
Definition authenticated (r : IAMAuthResponse) (t : Z) (a : AWSAuth) : AWSAuth :=
  set_expiry (Time_Add t (Duration_mul (Duration r) Second))
    (set_headers (Header_Set "X-Vault-Token" (Token r) (headers a))
       (set_token (Token r) a)).

(** The two assignments that end the [Logout] method. *)
Definition logged_out (a : AWSAuth) : AWSAuth :=
  set_headers (Header_Del "X-Vault-Token" (headers a)) (set_token "" a).

Definition logoutRequest (a : AWSAuth) : Request :=
  {| Method := "DELETE";
     ReqURL := URL_String (URL_with_Path (baseURL a) "/v1/auth");
     ReqBody := ""; ReqHeader := headers a |}.

(** The endpoint [NewAWSAuth] validates: the environment variable when it
    is set, the argument otherwise. *)
Definition resolved_endpoint (E : Env) (cerberusURL : string) : string :=
  if nonempty (Getenv E "CERBERUS_URL") then Getenv E "CERBERUS_URL"
  else cerberusURL.

(** ** The ways of the exchange *)

(** The branches on which [authenticate] gives up, named after what went
    wrong, each with the oracle answers that lead into it. *)
Inductive failure : Type :=
| RequestConstruction
| TransportFailure
| Unauthorized
| BadStatus
| JSONDecodeFailure
| Base64Failure
| DecryptFailure
| EnvelopeParseFailure.

Section Exchange.

Context (E : Env).

Definition accepted (a : AWSAuth) : Prop :=
  NewRequest_err E "POST" (ReqURL (authRequest E a)) = None.

Definition answered (s : State) (resp : Response) : Prop :=
  accepted (self s) /\
  RoundTrip E (world s) (authRequest E (self s)) = inr resp.

Inductive auth_fails (s : State) : failure -> Prop :=
| fails_construction msg :
    NewRequest_err E "POST" (ReqURL (authRequest E (self s))) = Some msg ->
    auth_fails s RequestConstruction
| fails_transport msg :
    accepted (self s) ->
    RoundTrip E (world s) (authRequest E (self s)) = inl msg ->
    auth_fails s TransportFailure
| fails_unauthorized resp :
    answered s resp ->
    StatusCode resp = StatusUnauthorized \/ StatusCode resp = StatusForbidden ->
    auth_fails s Unauthorized
| fails_status resp :
    answered s resp ->
    StatusCode resp <> StatusOK ->
    auth_fails s BadStatus
| fails_json resp msg :
    answered s resp ->
    StatusCode resp = StatusOK ->
    Decode_iamIntermediateResp E (Body resp) = inl msg ->
    auth_fails s JSONDecodeFailure
| fails_base64 resp intermediate msg :
    answered s resp ->
    StatusCode resp = StatusOK ->
    Decode_iamIntermediateResp E (Body resp) = inr intermediate ->
    base64_DecodeString E (AuthData intermediate) = inl msg ->
    auth_fails s Base64Failure
| fails_decrypt resp intermediate blob msg :
    answered s resp ->
    StatusCode resp = StatusOK ->
    Decode_iamIntermediateResp E (Body resp) = inr intermediate ->
    base64_DecodeString E (AuthData intermediate) = inr blob ->
    Decrypt (kmsClient (self s)) blob = inl msg ->
    auth_fails s DecryptFailure
| fails_envelope resp intermediate blob plaintext msg :
    answered s resp ->
    StatusCode resp = StatusOK ->
    Decode_iamIntermediateResp E (Body resp) = inr intermediate ->
    base64_DecodeString E (AuthData intermediate) = inr blob ->
    Decrypt (kmsClient (self s)) blob = inr plaintext ->
    Unmarshal_IAMAuthResponse E plaintext = inl msg ->
    auth_fails s EnvelopeParseFailure.

(** The exchange goes through: every oracle answers well and the
    decrypted envelope is [r]. *)
Definition auth_succeeds (s : State) (r : IAMAuthResponse) : Prop :=
  exists resp intermediate blob plaintext,
    answered s resp /\
    StatusCode resp = StatusOK /\
    Decode_iamIntermediateResp E (Body resp) = inr intermediate /\
    base64_DecodeString E (AuthData intermediate) = inr blob /\
    Decrypt (kmsClient (self s)) blob = inr plaintext /\
    Unmarshal_IAMAuthResponse E plaintext = inr r.

End Exchange.

(** The instances a caller can hold: built by [NewAWSAuth] and then driven
    through the methods that write to the receiver, in any world. *)
Inductive reachable (E : Env) : AWSAuth -> Prop :=
| reach_NewAWSAuth cerberusURL region a :
    NewAWSAuth E cerberusURL region = Returns (inr a) -> reachable E a
| reach_GetToken a w :
    reachable E a ->
    reachable E (self (snd (GetToken E {| self := a; world := w |})))
| reach_Refresh a w :
    reachable E a ->
    reachable E (self (snd (Refresh E {| self := a; world := w |})))
| reach_Logout a w :
    reachable E a ->
    reachable E (self (snd (AWSAuth_Logout E {| self := a; world := w |}))).

(** ** A test bench

    The doubles of the Go tests: a server that answers every request with
    one status and body, and a key-management mock that returns fixed
    data or an error. *)

Fixpoint split_scheme (s : string) : option (string * string) :=
  match strip_prefix "://" s with
  | Some rest => Some ("", rest)
  | None =>
    match s with
    | EmptyString => None
    | String c s' =>
      match split_scheme s' with
      | Some (scheme, rest) => Some (String c scheme, rest)
      | None => None
      end
    end
  end.

Fixpoint span_until (stop : ascii -> bool) (s : string) : string * string :=
  match s with
  | EmptyString => ("", "")
  | String c s' =>
    if stop c then ("", s)
    else let (taken, rest) := span_until stop s' in (String c taken, rest)
  end.

Definition is_one_of (cs : string) (c : ascii) : bool :=
  existsb (Ascii.eqb c) (list_ascii_of_string cs).

Definition tail_of (s : string) : string :=
  match s with EmptyString => "" | String _ r => r end.

Definition parse_absolute (s : string) : option URL :=
  match split_scheme s with
  | None => None
  | Some (scheme, rest) =>
    let (host, r1) := span_until (is_one_of "/?#") rest in
    let (path, r2) := span_until (is_one_of "?#") r1 in
    let (query, r3) :=
      match r2 with
      | String "?" q => span_until (is_one_of "#") q
      | _ => ("", r2)
      end in
    Some {| Scheme := scheme; Host := host; Path := path;
            RawQuery := query; Fragment := tail_of r3 |}
  end.

(** Modelled from the spec: [utils.ValidateURL] is not among the sources.
    The spec gives the endpoint it accepts as a syntactically valid
    absolute URL with an empty path; an empty string and a URL that
    carries a path are rejected. *)
Definition ValidateURL_spec (s : string) : string + URL :=
  match parse_absolute s with
  | Some u =>
    if nonempty (Scheme u) && nonempty (Host u) && negb (nonempty (Path u))
    then inr u
    else inl "invalid URL"
  | None => inl "invalid URL"
  end.

Definition fakeData : string := "VGhpcyBpcyBhIHJhbmRvbSBzdHJpbmc=".

Definition fakeAuthBody : string := json_object [("auth_data", quoted fakeData)].

Definition awsResponseBody : string :=
  json_object [("client_token", quoted "a-cool-token"); ("lease_duration", "3600")].

Definition coolEnvelope : IAMAuthResponse :=
  {| Token := "a-cool-token"; Policies := []; Metadata := ∅;
     Duration := 3600; Renewable := false |}.

Definition mockKMS (data : string) (shouldError : bool) : KMSAPI :=
  {| Decrypt := fun _ =>
       if shouldError then inl "Your decryption errored" else inr data |}.

Definition TestingServer (returnCode : Z) (body : string)
  : World -> Request -> string + Response :=
  fun _ _ => inr {| StatusCode := returnCode; Body := body |}.

(** The bench: [CERBERUS_URL] holds [envURL]; the metadata service names
    an instance profile; the decoders know the bodies above; the strings
    it encodes need no escape. *)
Definition testEnv (envURL : string) (returnCode : Z) (body : string)
    (kms : KMSAPI) (envelope : IAMAuthResponse) : Env :=
  {| ClientHeader := "CerberusGoClient/test";
     Getenv := fun name => if String.eqb name "CERBERUS_URL" then envURL else "";
     ValidateURL := ValidateURL_spec;
     NewSession := fun _ => None;
     IAMInfo := fun _ => inr "arn:aws:iam::111111111:instance-profile/fake-role";
     kms_New := fun _ _ => kms;
     NewRequest_err := fun _ _ => None;
     RoundTrip := TestingServer returnCode body;
     Latency := fun _ => 5;
     Decode_iamIntermediateResp := fun b =>
       if String.eqb b fakeAuthBody then inr {| AuthData := fakeData |}
       else inl "unexpected end of JSON input";
     base64_DecodeString := fun d =>
       if String.eqb d fakeData then inr "This is a random string"
       else inl "illegal base64 data";
     Unmarshal_IAMAuthResponse := fun p =>
       if String.eqb p awsResponseBody then inr envelope
       else inl "invalid character";
     Marshal_string := quoted |}.

Definition world0 : World := {| now := 1000; sent := []; decrypted := [] |}.

Definition testURL : URL :=
  {| Scheme := "https"; Host := "test.example.com"; Path := "";
     RawQuery := ""; Fragment := "" |}.

(** A fresh instance, as [NewAWSAuth] leaves it on the bench. *)
Definition freshAuth (kms : KMSAPI) : AWSAuth :=
  {| token := ""; region := "us-west-2";
     roleARN := "arn:aws:iam::111111111:role/fake-role";
     expiry := 0; baseURL := testURL;
     headers := <["X-Cerberus-Client" := ["CerberusGoClient/test"]]>
                  (<["Content-Type" := ["application/json"]]> ∅);
     kmsClient := kms |}.

(** The bench of the tests that authenticate: status 200, the
    intermediate body, a mock that decrypts to the envelope. *)
Definition happyEnv : Env :=
  testEnv "" StatusOK fakeAuthBody (mockKMS awsResponseBody false) coolEnvelope.

Definition happyAuth : AWSAuth := freshAuth (mockKMS awsResponseBody false).

(** The same server answering every request with [returnCode]. *)
Definition statusEnv (returnCode : Z) : Env :=
  testEnv "" returnCode "" (mockKMS awsResponseBody false) coolEnvelope.

(** An envelope whose lease, in nanoseconds, does not fit 64 bits. *)
Definition longLease : IAMAuthResponse :=
  {| Token := "a-cool-token"; Policies := []; Metadata := ∅;
     Duration := 9223372037; Renewable := false |}.

Definition longLeaseEnv : Env :=
  testEnv "" StatusOK fakeAuthBody (mockKMS awsResponseBody false) longLease.

(** [CERBERUS_URL] is set. *)
Definition overrideEnv : Env :=
  testEnv "https://test.example.com" StatusOK fakeAuthBody
    (mockKMS awsResponseBody false) coolEnvelope.

(** The instance metadata cannot be reached. *)
Definition noMetadataEnv : Env :=
  {| ClientHeader := ClientHeader happyEnv;
     Getenv := Getenv happyEnv;
     ValidateURL := ValidateURL happyEnv;
     NewSession := NewSession happyEnv;
     IAMInfo := fun _ => inl "EC2MetadataRequestError";
     kms_New := kms_New happyEnv;
     NewRequest_err := NewRequest_err happyEnv;
     RoundTrip := RoundTrip happyEnv;
     Latency := Latency happyEnv;
     Decode_iamIntermediateResp := Decode_iamIntermediateResp happyEnv;
     base64_DecodeString := base64_DecodeString happyEnv;
     Unmarshal_IAMAuthResponse := Unmarshal_IAMAuthResponse happyEnv;
     Marshal_string := Marshal_string happyEnv |}.

(** An instance whose token has run out. *)
Definition staleAuth : AWSAuth :=
  set_expiry 500 (set_token "mon-calamari" happyAuth).

(** ** Two sentences of the specification, as they are written *)

(** Construction succeeds exactly when the endpoint passed in is non-empty
    and valid and the region is non-empty. *)
Definition construction_by_arguments (E : Env) : Prop :=
  forall cerberusURL region : string,
    (exists a, NewAWSAuth E cerberusURL region = Returns (inr a)) <->
    (cerberusURL <> "" /\
     (exists u, ValidateURL E cerberusURL = inr u) /\
     region <> "").

(** The body of the request is the object with the one member [region]. *)
Definition body_is_region_only (E : Env) : Prop :=
  forall (a : AWSAuth) (w : World),
    reachable E a ->
    exists req,
      sent (world (snd (authenticate E {| self := a; world := w |})))
        = (sent w ++ [req])%list /\
      Method req = "POST" /\
      ReqURL req = URL_String (URL_with_Path (baseURL a) "/v2/auth/iam-principal") /\
      ReqBody req = json_object [("region", Marshal_string E (region a))]
                    +:+ String newline "" /\
      ReqHeader req !! "X-Cerberus-Client" = Some [ClientHeader E].

(** The state after a request that was answered, nothing else done. *)
Definition after_request (E : Env) (s : State) : State :=
  {| self := self s; world := after_Do E (world s) (authRequest E (self s)) |}.

Definition benchState (a : AWSAuth) : State := {| self := a; world := world0 |}.

(** The bench whose key-management mock fails, and a stale instance that
    holds that mock. *)
Definition brokenKMSEnv : Env :=
  testEnv "" StatusOK fakeAuthBody (mockKMS awsResponseBody true) coolEnvelope.

Definition brokenKMSAuth : AWSAuth :=
  set_expiry 500 (set_token "mon-calamari" (freshAuth (mockKMS awsResponseBody true))).

(** The state in which the first [GetToken] of the bench leaves a fresh
    instance. *)
Definition tokenHeld : State := snd (GetToken happyEnv (benchState happyAuth)).

(** An instance that holds a live token and the header that goes with
    it, as the tests of [Logout] set it up. *)
Definition loggedInAuth : AWSAuth :=
  set_headers (Header_Set "X-Vault-Token" "c3po" (headers happyAuth))
    (set_expiry 100000 (set_token "c3po" happyAuth)).

(** [strings.Index(s, old)]: where [old] first occurs in [s]. *)
Fixpoint strings_Index (s old : string) : option nat :=
  match strip_prefix old s with
  | Some _ => Some 0%nat
  | None =>
    match s with
    | EmptyString => None
    | String _ s' => option_map S (strings_Index s' old)
    end
  end.

(** The header names that [NewAWSAuth] and [authenticate] write. *)
Definition written_headers : gset string :=
  {[ "X-Cerberus-Client"; "Content-Type"; "X-Vault-Token" ]}.

(** The instance [NewAWSAuth] returns for a validated URL and the ARN of
    an instance profile. *)
Definition constructed (E : Env) (region : string) (parsedURL : URL)
    (InstanceProfileArn : string) : AWSAuth :=
  {| token := ""; region := region;
     roleARN := Replace_first InstanceProfileArn ":instance-profile/" ":role/";
     expiry := 0; baseURL := parsedURL;
     headers := <["X-Cerberus-Client" := [ClientHeader E]]>
                  (<["Content-Type" := ["application/json"]]> ∅);
     kmsClient := kms_New E region
                    (Replace_first InstanceProfileArn ":instance-profile/" ":role/") |}.

(** The same receiver in another world. *)
Definition at_world (a : AWSAuth) (w : World) : State :=
  {| self := a; world := w |}.

(** What no method writes: the identity of the instance. *)
Definition same_identity (a b : AWSAuth) : Prop :=
  region a = region b /\ roleARN a = roleARN b /\
  baseURL a = baseURL b /\ kmsClient a = kmsClient b.

(** An envelope that grants no time at all. *)
Definition noLease : IAMAuthResponse :=
  {| Token := "a-cool-token"; Policies := []; Metadata := ∅;
     Duration := 0; Renewable := false |}.

Definition noLeaseEnv : Env :=
  testEnv "" StatusOK fakeAuthBody (mockKMS awsResponseBody false) noLease.

(** No AWS session can be created; the instance metadata would not
    answer either. *)
Definition noSessionEnv : Env :=
  {| ClientHeader := ClientHeader happyEnv;
     Getenv := Getenv happyEnv;
     ValidateURL := ValidateURL happyEnv;
     NewSession := fun _ => Some "MissingRegion: could not find region configuration";
     IAMInfo := fun _ => inl "EC2MetadataRequestError";
     kms_New := kms_New happyEnv;
     NewRequest_err := NewRequest_err happyEnv;
     RoundTrip := RoundTrip happyEnv;
     Latency := Latency happyEnv;
     Decode_iamIntermediateResp := Decode_iamIntermediateResp happyEnv;
     base64_DecodeString := base64_DecodeString happyEnv;
     Unmarshal_IAMAuthResponse := Unmarshal_IAMAuthResponse happyEnv;
     Marshal_string := Marshal_string happyEnv |}.

(** Projections of the states that the proofs below reduce. *)
Ltac run_io :=
  cbn [self world ReqURL Method ReqBody ReqHeader now sent decrypted fst snd].

(** * Properties *)

(** ** The methods, branch by branch *)

Lemma authenticate_eq (E : Env) (s : State) :
  authenticate E s =
  let a := self s in
  let w := world s in
  match NewRequest_err E "POST" (ReqURL (authRequest E a)) with
  | Some msg =>
    (Some (Errorf ("Problem while performing request to Cerberus: " +:+ msg)), s)
  | None =>
    let w1 := after_Do E w (authRequest E a) in
    match RoundTrip E w (authRequest E a) with
    | inl msg =>
      (Some (Errorf ("Problem while performing request to Cerberus: " +:+ msg)),
       {| self := a; world := w1 |})
    | inr resp =>
      if (StatusCode resp =? StatusUnauthorized) || (StatusCode resp =? StatusForbidden)
      then (Some ErrorUnauthorized, {| self := a; world := w1 |})
      else if negb (StatusCode resp =? StatusOK)
      then (Some (Errorf ("Error while trying to authenticate. Got HTTP response code "
                          +:+ pretty (StatusCode resp))),
            {| self := a; world := w1 |})
      else
        match Decode_iamIntermediateResp E (Body resp) with
        | inl _ =>
          (Some (Errorf "Error while trying to parse response from Cerberus: <nil>"),
           {| self := a; world := w1 |})
        | inr intermediate =>
          match base64_DecodeString E (AuthData intermediate) with
          | inl msg =>
            (Some (Errorf ("Invalid authentication data returned from Cerberus: " +:+ msg)),
             {| self := a; world := w1 |})
          | inr blob =>
            let w2 := after_Decrypt E w1 blob in
            match Decrypt (kmsClient a) blob with
            | inl msg =>
              (Some (Errorf ("Error while decrypting response: " +:+ msg)),
               {| self := a; world := w2 |})
            | inr plaintext =>
              match Unmarshal_IAMAuthResponse E plaintext with
              | inl msg =>
                (Some (Errorf ("Error while parsing decrypted response: " +:+ msg)),
                 {| self := a; world := w2 |})
              | inr r =>
                (None, {| self := authenticated r (now w2) a; world := w2 |})
              end
            end
          end
        end
    end
  end.
Proof.
  destruct s as [a w].
  unfold authenticate, returned, authenticate_body, bindE, bind, check, throw,
    ret, http_NewRequest, http_Do, kms_Decrypt, getSelf, modifySelf, time_Now,
    authRequest, Request_with_Header, after_Do, after_Decrypt, authenticated.
  run_io.
  destruct (NewRequest_err _ _ _); [reflexivity|].
  run_io.
  destruct (RoundTrip _ _ _) as [msg|resp]; [reflexivity|].
  destruct (_ || _); [reflexivity|].
  destruct (negb _); [reflexivity|].
  destruct (Decode_iamIntermediateResp _ _); [reflexivity|].
  destruct (base64_DecodeString _ _); [reflexivity|].
  run_io.
  destruct (Decrypt _ _); [reflexivity|].
  destruct (Unmarshal_IAMAuthResponse _ _); reflexivity.
Qed.

Lemma AWSAuth_Logout_eq (E : Env) (s : State) :
  AWSAuth_Logout E s =
  let a := self s in
  let w1 := after_Do E (world s) (logoutRequest a) in
  match RoundTrip E (world s) (logoutRequest a) with
  | inl msg =>
    (Some (Errorf ("Problem while performing request to Cerberus: " +:+ msg)),
     {| self := a; world := w1 |})
  | inr resp =>
    if StatusCode resp =? StatusNoContent
    then (None, {| self := logged_out a; world := w1 |})
    else (Some (Errorf ("Unable to log out. Got HTTP response code "
                        +:+ pretty (StatusCode resp))),
          {| self := a; world := w1 |})
  end.
Proof.
  destruct s as [a w].
  unfold AWSAuth_Logout, Logout, bind, ret, http_Do, getSelf, modifySelf,
    logoutRequest, after_Do, logged_out.
  run_io.
  destruct (RoundTrip _ _ _) as [msg|resp]; [reflexivity|].
  destruct (_ =? _); reflexivity.
Qed.

Lemma IsAuthenticated_eq (s : State) :
  IsAuthenticated s =
  ((0 <? String.length (token (self s)))%nat
   && Time_Before (now (world s)) (expiry (self s)), s).
Proof. reflexivity. Qed.

Lemma GetToken_eq (E : Env) (s : State) :
  GetToken E s =
  if fst (IsAuthenticated s) then ((token (self s), None), s)
  else
    let (err, s') := authenticate E s in
    ((token (self s'), err), s').
Proof.
  unfold GetToken, bind.
  rewrite IsAuthenticated_eq. cbn [fst].
  destruct (_ && _); [reflexivity|].
  destruct (authenticate E s) as [err s']; reflexivity.
Qed.

Lemma token_nonempty (t : string) :
  (0 <? String.length t)%nat = true <-> t <> "".
Proof.
  destruct t as [|c t]; cbn; split; intros H; congruence.
Qed.

(** Whatever makes [authenticate] return an error, the receiver is as it
    was: the three assignments come after the last [return err]. *)
Lemma authenticate_error_keeps_self (E : Env) (s s' : State) (e : error) :
  authenticate E s = (Some e, s') -> self s' = self s.
Proof.
  rewrite authenticate_eq. cbv zeta.
  repeat match goal with
         | |- context [match ?x with _ => _ end] => destruct x
         end;
    intros H; inversion H; reflexivity.
Qed.

(** Once the request is built it goes out, once, whatever comes back. *)
Lemma authenticate_sent (E : Env) (s : State) :
  accepted E (self s) ->
  sent (world (snd (authenticate E s)))
  = (sent (world s) ++ [authRequest E (self s)])%list.
Proof.
  unfold accepted. intros Hacc.
  rewrite authenticate_eq. cbv zeta. rewrite Hacc.
  repeat match goal with
         | |- context [match ?x with _ => _ end] => destruct x
         end; reflexivity.
Qed.

(** ** The client-identification header is never lost *)

Lemma NewAWSAuth_client_header (E : Env) (cerberusURL region : string) (a : AWSAuth) :
  NewAWSAuth E cerberusURL region = Returns (inr a) ->
  headers a !! "X-Cerberus-Client" = Some [ClientHeader E].
Proof.
  unfold NewAWSAuth.
  repeat match goal with
         | |- context [match ?x with _ => _ end] => destruct x
         end; intros H; inversion H; subst; clear H.
  cbn [headers]. apply lookup_insert_eq.
Qed.

Lemma authenticate_client_header (E : Env) (s : State) (v : list string) :
  headers (self s) !! "X-Cerberus-Client" = Some v ->
  headers (self (snd (authenticate E s))) !! "X-Cerberus-Client" = Some v.
Proof.
  intros Hv. rewrite authenticate_eq. cbv zeta.
  repeat match goal with
         | |- context [match ?x with _ => _ end] => destruct x
         end; cbn [snd self]; try exact Hv.
  unfold authenticated, Header_Set. cbn [headers set_expiry set_headers].
  rewrite lookup_insert_ne by discriminate. exact Hv.
Qed.

Lemma GetToken_client_header (E : Env) (s : State) (v : list string) :
  headers (self s) !! "X-Cerberus-Client" = Some v ->
  headers (self (snd (GetToken E s))) !! "X-Cerberus-Client" = Some v.
Proof.
  intros Hv. rewrite GetToken_eq.
  destruct (fst (IsAuthenticated s)); [exact Hv|].
  pose proof (authenticate_client_header E s v Hv) as H.
  destruct (authenticate E s) as [err s']. exact H.
Qed.

Lemma Logout_client_header (E : Env) (s : State) (v : list string) :
  headers (self s) !! "X-Cerberus-Client" = Some v ->
  headers (self (snd (AWSAuth_Logout E s))) !! "X-Cerberus-Client" = Some v.
Proof.
  intros Hv. rewrite AWSAuth_Logout_eq. cbv zeta.
  repeat match goal with
         | |- context [match ?x with _ => _ end] => destruct x
         end; cbn [snd self]; try exact Hv.
  unfold logged_out, Header_Del. cbn [headers set_headers].
  rewrite lookup_delete_ne by discriminate. exact Hv.
Qed.

(** The invariant of the instances in use, by induction on how they were
    reached. *)
Lemma reachable_client_header (E : Env) (a : AWSAuth) :
  reachable E a ->
  headers a !! "X-Cerberus-Client" = Some [ClientHeader E].
Proof.
  induction 1 as [cerberusURL region a Hnew | a w _ IH | a w _ IH | a w _ IH].
  - eapply NewAWSAuth_client_header; eassumption.
  - apply (GetToken_client_header E {| self := a; world := w |}). exact IH.
  - apply (authenticate_client_header E {| self := a; world := w |}). exact IH.
  - apply (Logout_client_header E {| self := a; world := w |}). exact IH.
Qed.

Lemma happyAuth_constructed :
  NewAWSAuth happyEnv "https://test.example.com" "us-west-2" = Returns (inr happyAuth).
Proof. reflexivity. Qed.

(** ** C1: the request of the authentication exchange *)

(** C1, as amended.  For every instance built by [NewAWSAuth] and driven
    through its methods, [authenticate], once [http.NewRequest] has
    taken the URL string, sends exactly one request: a POST to the base
    URL with the path [/v2/auth/iam-principal], whose body is the JSON
    object with the two members [iam_principal_arn] and [region], the
    latter being the string [encoding/json] writes for the region of the
    instance, and whose headers are those of the instance, the
    client-identification header among them. *)
Theorem C1_authenticate_request (E : Env) (a : AWSAuth) (w : World) :
  reachable E a ->
  accepted E a ->
  exists arn : string,
    sent (world (snd (authenticate E {| self := a; world := w |})))
    = (sent w ++
       [{| Method := "POST";
           ReqURL := URL_String (URL_with_Path (baseURL a) "/v2/auth/iam-principal");
           ReqBody := json_object [("iam_principal_arn", Marshal_string E arn);
                                   ("region", Marshal_string E (region a))]
                      +:+ String newline "";
           ReqHeader := headers a |}])%list
    /\ headers a !! "X-Cerberus-Client" = Some [ClientHeader E].
Proof.
  intros Hreach Hacc. exists "". split.
  - rewrite authenticate_sent by exact Hacc. reflexivity.
  - apply reachable_client_header. exact Hreach.
Qed.

Lemma C1_authenticate_request_witness :
  reachable happyEnv happyAuth /\
  accepted happyEnv happyAuth /\
  exists arn : string,
    sent (world (snd (authenticate happyEnv {| self := happyAuth; world := world0 |})))
    = (sent world0 ++
       [{| Method := "POST";
           ReqURL := URL_String (URL_with_Path (baseURL happyAuth) "/v2/auth/iam-principal");
           ReqBody := json_object [("iam_principal_arn", Marshal_string happyEnv arn);
                                   ("region", Marshal_string happyEnv (region happyAuth))]
                      +:+ String newline "";
           ReqHeader := headers happyAuth |}])%list
    /\ headers happyAuth !! "X-Cerberus-Client" = Some [ClientHeader happyEnv].
Proof.
  assert (Hr : reachable happyEnv happyAuth).
  { apply (reach_NewAWSAuth happyEnv "https://test.example.com" "us-west-2").
    reflexivity. }
  assert (Ha : accepted happyEnv happyAuth) by reflexivity.
  split; [exact Hr|]. split; [exact Ha|].
  apply (C1_authenticate_request happyEnv happyAuth world0 Hr Ha).
Defined.

(** C1, as written, does not hold: on the bench the body of the request
    has the member [iam_principal_arn] before [region], so it is not the
    object with [region] alone. *)
Lemma C1_body_not_region_only : ~ body_is_region_only happyEnv.
Proof.
  intros H.
  destruct (H happyAuth world0) as (req & Hsent & _ & _ & Hbody & _).
  { apply (reach_NewAWSAuth happyEnv "https://test.example.com" "us-west-2").
    reflexivity. }
  rewrite authenticate_sent in Hsent by reflexivity.
  apply app_inv_head in Hsent. inversion Hsent as [Hreq]. subst req.
  vm_compute in Hbody. discriminate Hbody.
Qed.

(** The body the bench sends, member by member. *)
Example authRequest_body_on_bench :
  ReqBody (authRequest happyEnv happyAuth)
  = json_object [("iam_principal_arn", quoted ""); ("region", quoted "us-west-2")]
    +:+ String newline ""
  /\ ReqURL (authRequest happyEnv happyAuth)
     = "https://test.example.com/v2/auth/iam-principal".
Proof. split; reflexivity. Qed.

Lemma string_app_assoc (s1 s2 s3 : string) :
  (s1 +:+ s2) +:+ s3 = s1 +:+ (s2 +:+ s3).
Proof.
  induction s1 as [|c s1 IH]; [reflexivity|].
  change (String c ((s1 +:+ s2) +:+ s3) = String c (s1 +:+ (s2 +:+ s3))).
  rewrite IH. reflexivity.
Qed.

Lemma string_app_nil_r (s : string) : s +:+ "" = s.
Proof.
  induction s as [|c s IH]; [reflexivity|].
  change (String c (s +:+ "") = String c s). rewrite IH. reflexivity.
Qed.

(** With no path, query or fragment on the base URL, the URL of the
    request is the endpoint followed by the path. *)
Lemma authRequest_URL_appends (E : Env) (a : AWSAuth) :
  Scheme (baseURL a) <> "" -> Host (baseURL a) <> "" ->
  Path (baseURL a) = "" -> RawQuery (baseURL a) = "" ->
  Fragment (baseURL a) = "" ->
  ReqURL (authRequest E a)
  = URL_String (baseURL a) +:+ "/v2/auth/iam-principal".
Proof.
  destruct a as [t r arn e [sch host path q f] h k].
  cbn [baseURL Scheme Host Path RawQuery Fragment].
  intros Hs Hh -> -> ->.
  destruct sch as [|c sch]; [congruence|].
  destruct host as [|d host]; [congruence|].
  unfold authRequest, URL_String, URL_with_Path.
  cbn [ReqURL baseURL Scheme Host Path RawQuery Fragment nonempty
       starts_with_slash orb andb negb].
  change (String.append "" ?x) with x.
  rewrite !string_app_nil_r, !string_app_assoc. reflexivity.
Qed.

(** ** C2: Logout on an instance that never authenticated *)

(** C2 (the code departs from it).  The guard of the [Logout] method is
    commented out, so whatever the token is, set or not, the method sends
    the DELETE request, and the error it may return is never
    [ErrorUnauthenticated]. *)
Theorem C2_logout_always_sends (E : Env) (s : State) :
  sent (world (snd (AWSAuth_Logout E s)))
  = (sent (world s) ++ [logoutRequest (self s)])%list
  /\ fst (AWSAuth_Logout E s) <> Some ErrorUnauthenticated.
Proof.
  rewrite AWSAuth_Logout_eq. cbv zeta.
  destruct (RoundTrip E (world s) (logoutRequest (self s))) as [msg|resp];
    [|destruct (StatusCode resp =? StatusNoContent)];
    split; cbn [fst snd world after_Do sent]; try reflexivity; discriminate.
Qed.

(** On the bench, with a server that answers 204: a fresh instance, whose
    token is unset, logs out without error after one request. *)
Example logout_of_fresh_instance :
  token happyAuth = ""
  /\ fst (AWSAuth_Logout (statusEnv StatusNoContent)
            {| self := happyAuth; world := world0 |}) = None
  /\ sent (world (snd (AWSAuth_Logout (statusEnv StatusNoContent)
                         {| self := happyAuth; world := world0 |})))
     = [logoutRequest happyAuth].
Proof. repeat split. Qed.

(** ** C3: construction *)

Lemma length_zero_iff (s : string) :
  (String.length s =? 0)%nat = true <-> s = "".
Proof. destruct s; cbn; split; congruence. Qed.

Lemma nonempty_false_iff (s : string) : nonempty s = false <-> s = "".
Proof. destruct s; cbn; split; congruence. Qed.

(** C3, as amended.  Construction succeeds exactly when the region is
    non-empty, the endpoint in force (the [CERBERUS_URL] variable when it
    is set, the argument otherwise) is non-empty and passes
    [ValidateURL], the AWS session is created without error and the
    instance metadata yields the IAM information.  When the region is
    empty, when the endpoint in force is empty or does not pass
    [ValidateURL], and when, the session created, the instance metadata
    cannot be read, it returns an error and no instance. *)
Theorem C3_construction (E : Env) (cerberusURL region : string) :
  ((exists a, NewAWSAuth E cerberusURL region = Returns (inr a)) <->
   (region <> "" /\
    resolved_endpoint E cerberusURL <> "" /\
    (exists u, ValidateURL E (resolved_endpoint E cerberusURL) = inr u) /\
    (exists arn, IAMInfo E region = inr arn) /\
    NewSession E region = None))
  /\ (region = "" \/
      resolved_endpoint E cerberusURL = "" \/
      (exists err, ValidateURL E (resolved_endpoint E cerberusURL) = inl err) \/
      (NewSession E region = None /\ exists e, IAMInfo E region = inl e) ->
      exists e, NewAWSAuth E cerberusURL region = Returns (inl e)).
Proof.
  unfold NewAWSAuth. fold (resolved_endpoint E cerberusURL).
  destruct (String.length region =? 0)%nat eqn:Hr.
  { apply length_zero_iff in Hr. split.
    - split.
      + intros [a Ha]. discriminate Ha.
      + intros (Hne & _). contradiction.
    - intros _. eexists. reflexivity. }
  assert (Hr' : region <> "").
  { intros ->. discriminate Hr. }
  destruct (String.length (resolved_endpoint E cerberusURL) =? 0)%nat eqn:Hu.
  { apply length_zero_iff in Hu. split.
    - split.
      + intros [a Ha]. discriminate Ha.
      + intros (_ & Hne & _). contradiction.
    - intros _. eexists. reflexivity. }
  assert (Hu' : resolved_endpoint E cerberusURL <> "").
  { intros Heq. rewrite Heq in Hu. discriminate Hu. }
  destruct (ValidateURL E (resolved_endpoint E cerberusURL)) as [err|u].
  { split.
    - split.
      + intros [a Ha]. discriminate Ha.
      + intros (_ & _ & [u Hv] & _). discriminate Hv.
    - intros _. eexists. reflexivity. }
  destruct (NewSession E region) as [msg|].
  { split.
    - split.
      + intros [a Ha]. discriminate Ha.
      + intros (_ & _ & _ & _ & Hs). discriminate Hs.
    - intros [H | [H | [[err H] | [H _]]]];
        [contradiction | contradiction | discriminate H | discriminate H]. }
  destruct (IAMInfo E region) as [e|arn].
  { split.
    - split.
      + intros [a Ha]. discriminate Ha.
      + intros (_ & _ & _ & [arn Hi] & _). discriminate Hi.
    - intros _. eexists. reflexivity. }
  split.
  - split.
    + intros _. repeat split; eauto.
    + intros _. eexists. reflexivity.
  - intros [H | [H | [[err H] | [_ [e H]]]]];
      [contradiction | contradiction | discriminate H | discriminate H].
Qed.

(** C3, as written, does not hold.  With [CERBERUS_URL] set, construction
    succeeds on an empty endpoint argument; with the instance metadata out
    of reach, it fails on a valid endpoint and region. *)
Lemma C3_arguments_do_not_decide :
  ~ construction_by_arguments overrideEnv
  /\ ~ construction_by_arguments noMetadataEnv.
Proof.
  split; intros H.
  - destruct (H "" "us-west-2") as [Hl _].
    destruct Hl as (Hne & _).
    + eexists. reflexivity.
    + apply Hne. reflexivity.
  - destruct (H "https://test.example.com" "us-west-2") as [_ Hr].
    destruct Hr as [a Ha].
    + split; [discriminate|]. split; [|discriminate].
      eexists. reflexivity.
    + discriminate Ha.
Qed.

(** ** C4: IsAuthenticated *)

(** C4.  [IsAuthenticated] answers true exactly when the token is
    non-empty and the clock is strictly before the expiry; it answers
    false when the expiry is the very instant of the call; and it leaves
    the receiver and the world as they were. *)
Theorem C4_IsAuthenticated (s : State) :
  snd (IsAuthenticated s) = s
  /\ (fst (IsAuthenticated s) = true <->
      token (self s) <> "" /\ now (world s) < expiry (self s))
  /\ fst (IsAuthenticated
            {| self := set_expiry (now (world s)) (self s); world := world s |})
     = false.
Proof.
  rewrite !IsAuthenticated_eq. cbn [fst snd self world expiry set_expiry].
  unfold Time_Before. split; [reflexivity|]. split.
  - rewrite andb_true_iff, token_nonempty, Z.ltb_lt. reflexivity.
  - rewrite Z.ltb_irrefl. apply andb_false_r.
Qed.

(** ** C5 and C7: the failures of the exchange *)

Lemma status_ok_tests (code : Z) :
  code = StatusOK ->
  (code =? StatusUnauthorized) || (code =? StatusForbidden) = false
  /\ negb (code =? StatusOK) = false.
Proof. intros ->. split; reflexivity. Qed.

Lemma authenticate_eq_status (E : Env) (s : State) (resp : Response) :
  answered E s resp ->
  StatusCode resp <> StatusOK ->
  authenticate E s =
  (Some (if (StatusCode resp =? StatusUnauthorized) || (StatusCode resp =? StatusForbidden)
         then ErrorUnauthorized
         else Errorf ("Error while trying to authenticate. Got HTTP response code "
                      +:+ pretty (StatusCode resp))),
   after_request E s).
Proof.
  intros [Hacc Hresp] Hcode. unfold accepted in Hacc.
  rewrite authenticate_eq. cbv zeta. rewrite Hacc, Hresp.
  destruct (_ || _); [reflexivity|].
  apply Z.eqb_neq in Hcode. rewrite Hcode. reflexivity.
Qed.

Lemma authenticate_eq_ok (E : Env) (s : State) (resp : Response) :
  answered E s resp ->
  StatusCode resp = StatusOK ->
  authenticate E s =
  let a := self s in
  let w1 := after_Do E (world s) (authRequest E a) in
  match Decode_iamIntermediateResp E (Body resp) with
  | inl _ =>
    (Some (Errorf "Error while trying to parse response from Cerberus: <nil>"),
     {| self := a; world := w1 |})
  | inr intermediate =>
    match base64_DecodeString E (AuthData intermediate) with
    | inl msg =>
      (Some (Errorf ("Invalid authentication data returned from Cerberus: " +:+ msg)),
       {| self := a; world := w1 |})
    | inr blob =>
      let w2 := after_Decrypt E w1 blob in
      match Decrypt (kmsClient a) blob with
      | inl msg =>
        (Some (Errorf ("Error while decrypting response: " +:+ msg)),
         {| self := a; world := w2 |})
      | inr plaintext =>
        match Unmarshal_IAMAuthResponse E plaintext with
        | inl msg =>
          (Some (Errorf ("Error while parsing decrypted response: " +:+ msg)),
           {| self := a; world := w2 |})
        | inr r =>
          (None, {| self := authenticated r (now w2) a; world := w2 |})
        end
      end
    end
  end.
Proof.
  intros [Hacc Hresp] Hcode. unfold accepted in Hacc.
  rewrite authenticate_eq. cbv zeta. rewrite Hacc, Hresp.
  destruct (status_ok_tests _ Hcode) as [-> ->]. reflexivity.
Qed.

Lemma auth_fails_returns_error (E : Env) (s : State) (f : failure) :
  auth_fails E s f -> exists e s', authenticate E s = (Some e, s').
Proof.
  intros Hf.
  destruct Hf as
    [msg Hm | msg Hacc Hm | resp Ha Hcode | resp Ha Hcode
     | resp msg Ha Hcode Hd | resp i msg Ha Hcode Hd Hb
     | resp i blob msg Ha Hcode Hd Hb Hk
     | resp i blob plaintext msg Ha Hcode Hd Hb Hk Hu].
  - rewrite authenticate_eq. cbv zeta. rewrite Hm. eauto.
  - unfold accepted in Hacc.
    rewrite authenticate_eq. cbv zeta. rewrite Hacc, Hm. eauto.
  - rewrite (authenticate_eq_status E s resp Ha); [eauto|].
    unfold StatusOK, StatusUnauthorized, StatusForbidden in *. lia.
  - rewrite (authenticate_eq_status E s resp Ha Hcode). eauto.
  - rewrite (authenticate_eq_ok E s resp Ha Hcode). cbv zeta.
    rewrite Hd. eauto.
  - rewrite (authenticate_eq_ok E s resp Ha Hcode). cbv zeta.
    rewrite Hd, Hb. eauto.
  - rewrite (authenticate_eq_ok E s resp Ha Hcode). cbv zeta.
    rewrite Hd, Hb, Hk. eauto.
  - rewrite (authenticate_eq_ok E s resp Ha Hcode). cbv zeta.
    rewrite Hd, Hb, Hk, Hu. eauto.
Qed.

(** The branches cover every run: the exchange either fails on one of
    them or goes through. *)
Lemma exchange_outcome (E : Env) (s : State) :
  (exists f, auth_fails E s f) \/ (exists r, auth_succeeds E s r).
Proof.
  destruct (NewRequest_err E "POST" (ReqURL (authRequest E (self s)))) as [msg|] eqn:Hn.
  { left. eexists. eapply fails_construction. exact Hn. }
  destruct (RoundTrip E (world s) (authRequest E (self s))) as [msg|resp] eqn:Hr.
  { left. eexists. eapply fails_transport; eassumption. }
  assert (Ha : answered E s resp) by (split; assumption).
  destruct (decide (StatusCode resp = StatusOK)) as [Hcode|Hcode].
  2: { left. eexists. eapply fails_status; eassumption. }
  destruct (Decode_iamIntermediateResp E (Body resp)) as [msg|i] eqn:Hd.
  { left. eexists. eapply fails_json; eassumption. }
  destruct (base64_DecodeString E (AuthData i)) as [msg|blob] eqn:Hb.
  { left. eexists. eapply fails_base64; eassumption. }
  destruct (Decrypt (kmsClient (self s)) blob) as [msg|plaintext] eqn:Hk.
  { left. eexists. eapply fails_decrypt; eassumption. }
  destruct (Unmarshal_IAMAuthResponse E plaintext) as [msg|r] eqn:Hu.
  { left. eexists. eapply fails_envelope; eassumption. }
  right. exists r, resp, i, blob, plaintext. auto 10.
Qed.

(** C5.  On every branch on which the exchange fails (the request cannot
    be built, the transport fails, the status is 401 or 403, the status
    is otherwise not 200, the body is not the expected JSON, the data is
    not base64, the decryption fails, the decrypted envelope does not
    parse), [authenticate] returns an error, and the token, the expiry
    and the headers of the receiver are what they were before the call. *)
Theorem C5_failure_leaves_state (E : Env) (s : State) (f : failure) :
  auth_fails E s f ->
  exists (e : error) (s' : State),
    authenticate E s = (Some e, s')
    /\ token (self s') = token (self s)
    /\ expiry (self s') = expiry (self s)
    /\ headers (self s') = headers (self s).
Proof.
  intros Hf.
  destruct (auth_fails_returns_error E s f Hf) as (e & s' & Hrun).
  exists e, s'. split; [exact Hrun|].
  rewrite (authenticate_error_keeps_self E s s' e Hrun). auto.
Qed.

Lemma C5_failure_leaves_state_witness :
  auth_fails brokenKMSEnv (benchState brokenKMSAuth) DecryptFailure
  /\ exists (e : error) (s' : State),
    authenticate brokenKMSEnv (benchState brokenKMSAuth) = (Some e, s')
    /\ token (self s') = token (self (benchState brokenKMSAuth))
    /\ expiry (self s') = expiry (self (benchState brokenKMSAuth))
    /\ headers (self s') = headers (self (benchState brokenKMSAuth)).
Proof.
  assert (Hf : auth_fails brokenKMSEnv (benchState brokenKMSAuth) DecryptFailure).
  { eapply fails_decrypt with
      (resp := {| StatusCode := StatusOK; Body := fakeAuthBody |})
      (intermediate := {| AuthData := fakeData |})
      (blob := "This is a random string");
      try reflexivity.
    split; reflexivity. }
  split; [exact Hf|].
  exact (C5_failure_leaves_state brokenKMSEnv (benchState brokenKMSAuth)
           DecryptFailure Hf).
Defined.

(** C7.  When the request is answered with status 401 or 403,
    [authenticate] returns [ErrorUnauthorized] itself; with any other
    status than 200 it returns the error whose message ends with that
    status code; in both cases one request has gone out and no second
    one follows. *)
Theorem C7_status_errors (E : Env) (s : State) (resp : Response) :
  answered E s resp ->
  (StatusCode resp = StatusUnauthorized \/ StatusCode resp = StatusForbidden ->
   authenticate E s = (Some ErrorUnauthorized, after_request E s))
  /\ (StatusCode resp <> StatusOK ->
      StatusCode resp <> StatusUnauthorized ->
      StatusCode resp <> StatusForbidden ->
      authenticate E s =
      (Some (Errorf ("Error while trying to authenticate. Got HTTP response code "
                     +:+ pretty (StatusCode resp))),
       after_request E s))
  /\ sent (world (after_request E s))
     = (sent (world s) ++ [authRequest E (self s)])%list.
Proof.
  intros Ha. split; [|split; [|reflexivity]].
  - intros Hcode.
    rewrite (authenticate_eq_status E s resp Ha).
    + destruct Hcode as [-> | ->]; reflexivity.
    + unfold StatusOK, StatusUnauthorized, StatusForbidden in *. lia.
  - intros Hok H401 H403.
    rewrite (authenticate_eq_status E s resp Ha Hok).
    apply Z.eqb_neq in H401, H403. rewrite H401, H403. reflexivity.
Qed.

Lemma C7_status_errors_witness :
  answered (statusEnv 500) (benchState happyAuth) {| StatusCode := 500; Body := "" |}
  /\ authenticate (statusEnv 500) (benchState happyAuth) =
     (Some (Errorf ("Error while trying to authenticate. Got HTTP response code "
                    +:+ pretty 500)),
      after_request (statusEnv 500) (benchState happyAuth))
  /\ sent (world (after_request (statusEnv 500) (benchState happyAuth)))
     = [authRequest (statusEnv 500) happyAuth].
Proof.
  assert (Ha : answered (statusEnv 500) (benchState happyAuth)
                 {| StatusCode := 500; Body := "" |}).
  { split; reflexivity. }
  split; [exact Ha|].
  destruct (C7_status_errors (statusEnv 500) (benchState happyAuth)
              {| StatusCode := 500; Body := "" |} Ha) as (_ & Hother & Hsent).
  split; [|exact Hsent].
  apply Hother; discriminate.
Defined.

(** The status code can be read back from the error. *)
Lemma status_error_carries_code (c1 c2 : Z) :
  Errorf ("Error while trying to authenticate. Got HTTP response code " +:+ pretty c1)
  = Errorf ("Error while trying to authenticate. Got HTTP response code " +:+ pretty c2) ->
  c1 = c2.
Proof.
  intros H. inversion H as [Hmsg].
  apply (inj (String.append _)) in Hmsg.
  apply (inj pretty) in Hmsg. exact Hmsg.
Qed.

Example unauthorized_on_bench :
  fst (GetToken (statusEnv StatusUnauthorized) (benchState happyAuth))
  = ("", Some ErrorUnauthorized).
Proof. reflexivity. Qed.

(** ** C6: Logout *)

(** C6.  When the DELETE request is answered 204, [Logout] returns no
    error, the token is cleared and the session-token header is gone;
    when it is answered with any other status, or not answered at all,
    [Logout] returns an error and the token and the headers are what they
    were. *)
Theorem C6_logout (E : Env) (s : State) :
  match RoundTrip E (world s) (logoutRequest (self s)) with
  | inr resp =>
    if StatusCode resp =? StatusNoContent then
      exists s',
        AWSAuth_Logout E s = (None, s')
        /\ token (self s') = ""
        /\ headers (self s') !! "X-Vault-Token" = None
    else
      exists e s',
        AWSAuth_Logout E s = (Some e, s')
        /\ token (self s') = token (self s)
        /\ headers (self s') = headers (self s)
  | inl _ =>
    exists e s',
      AWSAuth_Logout E s = (Some e, s')
      /\ token (self s') = token (self s)
      /\ headers (self s') = headers (self s)
  end.
Proof.
  rewrite AWSAuth_Logout_eq. cbv zeta.
  destruct (RoundTrip E (world s) (logoutRequest (self s))) as [msg|resp].
  - eexists _, _. split; [reflexivity|]. split; reflexivity.
  - destruct (StatusCode resp =? StatusNoContent).
    + eexists. split; [reflexivity|]. split; [reflexivity|].
      cbn [self logged_out set_headers headers]. unfold Header_Del.
      apply lookup_delete_eq.
    + eexists _, _. split; [reflexivity|]. split; reflexivity.
Qed.

Example logout_204_on_bench :
  let s' := snd (AWSAuth_Logout (statusEnv StatusNoContent) (benchState loggedInAuth)) in
  headers loggedInAuth !! "X-Vault-Token" = Some ["c3po"]
  /\ fst (AWSAuth_Logout (statusEnv StatusNoContent) (benchState loggedInAuth)) = None
  /\ token (self s') = ""
  /\ headers (self s') !! "X-Vault-Token" = None
  /\ headers (self s') !! "X-Cerberus-Client" = Some ["CerberusGoClient/test"].
Proof. cbv zeta. repeat split; reflexivity. Qed.

Example logout_200_on_bench :
  let s' := snd (AWSAuth_Logout (statusEnv StatusOK) (benchState loggedInAuth)) in
  fst (AWSAuth_Logout (statusEnv StatusOK) (benchState loggedInAuth))
  = Some (Errorf ("Unable to log out. Got HTTP response code " +:+ pretty 200))
  /\ self s' = loggedInAuth.
Proof. cbv zeta. split; reflexivity. Qed.

(** ** C8: what a successful exchange writes *)

Lemma auth_succeeds_eq (E : Env) (s : State) (r : IAMAuthResponse) :
  auth_succeeds E s r ->
  exists blob : string,
    let w2 := after_Decrypt E (after_Do E (world s) (authRequest E (self s))) blob in
    authenticate E s =
    (None, {| self := authenticated r (now w2) (self s); world := w2 |}).
Proof.
  intros (resp & i & blob & plaintext & Ha & Hcode & Hd & Hb & Hk & Hu).
  exists blob. cbv zeta.
  rewrite (authenticate_eq_ok E s resp Ha Hcode). cbv zeta.
  rewrite Hd, Hb, Hk, Hu. reflexivity.
Qed.

(** A lease of at most 9223372036 seconds fits a [time.Duration]. *)
Lemma lease_fits (d : Z) :
  -9223372036 <= d <= 9223372036 ->
  Duration_mul d Second = d * Second.
Proof.
  intros Hd. unfold Duration_mul, wrap64, Second.
  rewrite Z.mod_small; lia.
Qed.

(** On success the token, the header and the expiry are written in one
    run, and for a lease that fits, the expiry is the instant of the
    write plus the lease. *)
Lemma authenticate_success_state (E : Env) (s : State) (r : IAMAuthResponse) :
  auth_succeeds E s r ->
  -9223372036 <= Duration r <= 9223372036 ->
  exists s',
    authenticate E s = (None, s')
    /\ token (self s') = Token r
    /\ headers (self s') = Header_Set "X-Vault-Token" (Token r) (headers (self s))
    /\ expiry (self s') = now (world s') + Duration r * Second.
Proof.
  intros Hok Hfit.
  destruct (auth_succeeds_eq E s r Hok) as [blob Hrun]. cbv zeta in Hrun.
  eexists. split; [exact Hrun|].
  cbn [self world authenticated set_expiry set_headers set_token
       token headers expiry].
  rewrite (lease_fits _ Hfit). repeat split; reflexivity.
Qed.

Example getToken_on_bench :
  fst (GetToken happyEnv (benchState happyAuth)) = ("a-cool-token", None)
  /\ token (self tokenHeld) = "a-cool-token"
  /\ Header_Get "X-Vault-Token" (headers (self tokenHeld)) = "a-cool-token"
  /\ expiry (self tokenHeld) = now (world tokenHeld) + 3600 * Second
  /\ fst (IsAuthenticated tokenHeld) = true.
Proof. repeat split; reflexivity. Qed.

(** C8 (the code departs from it).  The lease is turned into
    nanoseconds in 64 bits.  On the bench a successful exchange whose
    envelope grants 9223372037 seconds sets the token and the header, but
    the expiry it writes lies 9223372036709551616 ns before the instant
    of the write, not 9223372037 s after it, and the instance is not
    authenticated. *)
Theorem C8_long_lease_wraps :
  let run := authenticate longLeaseEnv (benchState happyAuth) in
  fst run = None
  /\ token (self (snd run)) = Token longLease
  /\ Header_Get "X-Vault-Token" (headers (self (snd run))) = Token longLease
  /\ expiry (self (snd run)) = now (world (snd run)) - 9223372036709551616
  /\ expiry (self (snd run)) <> now (world (snd run)) + Duration longLease * Second
  /\ fst (IsAuthenticated (snd run)) = false.
Proof.
  cbv zeta. repeat split; try reflexivity.
  vm_compute. discriminate.
Qed.

(** ** C9 and C10: GetToken *)

(** C9.  While the token is live, [GetToken] returns it without error
    and leaves the receiver and the world, with its record of requests
    and of decryptions, as they were.  Hence when a first [GetToken] had
    to authenticate and did so, and the token it left is still live at a
    second call, the second call returns the same token and the two
    calls together have sent exactly one request. *)
Theorem C9_getToken_cached (E : Env) (s : State) :
  fst (IsAuthenticated s) = true ->
  GetToken E s = ((token (self s), None), s)
  /\ forall (s0 : State) (tok : string),
       fst (IsAuthenticated s0) = false ->
       fst (GetToken E s0) = (tok, None) ->
       self s = self (snd (GetToken E s0)) ->
       sent (world s) = sent (world (snd (GetToken E s0))) ->
       fst (GetToken E s) = (tok, None)
       /\ sent (world (snd (GetToken E s)))
          = (sent (world s0) ++ [authRequest E (self s0)])%list.
Proof.
  intros Hlive.
  assert (Hget : GetToken E s = ((token (self s), None), s)).
  { rewrite GetToken_eq, Hlive. reflexivity. }
  split; [exact Hget|].
  intros s0 tok Hdead Hfirst Hself Hsent.
  rewrite Hget. cbn [fst snd]. rewrite Hsent, Hself.
  revert Hfirst. rewrite GetToken_eq, Hdead.
  destruct (authenticate E s0) as [err s1] eqn:Hrun. cbn [fst snd].
  intros Hfirst. inversion Hfirst; subst. split; [reflexivity|].
  assert (Hacc : accepted E (self s0)).
  { unfold accepted.
    destruct (NewRequest_err E "POST" (ReqURL (authRequest E (self s0)))) eqn:Hn;
      [|reflexivity].
    rewrite authenticate_eq in Hrun. cbv zeta in Hrun. rewrite Hn in Hrun.
    discriminate Hrun. }
  pose proof (authenticate_sent E s0 Hacc) as Hs. rewrite Hrun in Hs.
  exact Hs.
Qed.

Lemma C9_getToken_cached_witness :
  fst (IsAuthenticated tokenHeld) = true
  /\ GetToken happyEnv tokenHeld = ((token (self tokenHeld), None), tokenHeld)
  /\ fst (GetToken happyEnv tokenHeld) = ("a-cool-token", None)
  /\ sent (world (snd (GetToken happyEnv tokenHeld))) = [authRequest happyEnv happyAuth].
Proof.
  assert (Hlive : fst (IsAuthenticated tokenHeld) = true) by reflexivity.
  destruct (C9_getToken_cached happyEnv tokenHeld Hlive) as [Hget Htwo].
  split; [exact Hlive|]. split; [exact Hget|].
  apply (Htwo (benchState happyAuth) "a-cool-token"); reflexivity.
Defined.

(** C10.  When the token is set but has run out and the
    re-authentication that [GetToken] starts fails, [GetToken] returns
    the token it held, which is not the empty string, together with the
    error. *)
Theorem C10_getToken_stale (E : Env) (s s' : State) (e : error) :
  token (self s) <> "" ->
  expiry (self s) <= now (world s) ->
  authenticate E s = (Some e, s') ->
  GetToken E s = ((token (self s), Some e), s').
Proof.
  intros Htok Hexp Hrun.
  rewrite GetToken_eq, IsAuthenticated_eq. cbn [fst].
  unfold Time_Before.
  assert (Hlt : (now (world s) <? expiry (self s)) = false)
    by (apply Z.ltb_ge; exact Hexp).
  rewrite Hlt, andb_false_r, Hrun.
  rewrite (authenticate_error_keeps_self E s s' e Hrun). reflexivity.
Qed.

Lemma C10_getToken_stale_witness :
  token staleAuth <> ""
  /\ expiry staleAuth <= now world0
  /\ GetToken (statusEnv 500) (benchState staleAuth) =
     (("mon-calamari",
       Some (Errorf ("Error while trying to authenticate. Got HTTP response code "
                     +:+ pretty 500))),
      after_request (statusEnv 500) (benchState staleAuth)).
Proof.
  assert (Htok : token (self (benchState staleAuth)) <> "") by discriminate.
  assert (Hexp : expiry (self (benchState staleAuth))
                 <= now (world (benchState staleAuth))) by (vm_compute; discriminate).
  split; [exact Htok|]. split; [exact Hexp|].
  apply (C10_getToken_stale (statusEnv 500) (benchState staleAuth)
           (after_request (statusEnv 500) (benchState staleAuth)) _ Htok Hexp).
  reflexivity.
Defined.

(** * Further properties of the code *)

(** ** NewAWSAuth *)

Lemma NewAWSAuth_inr (E : Env) (cerberusURL region : string) (a : AWSAuth) :
  NewAWSAuth E cerberusURL region = Returns (inr a) ->
  region <> "" /\
  exists parsedURL arn,
    ValidateURL E (resolved_endpoint E cerberusURL) = inr parsedURL
    /\ IAMInfo E region = inr arn
    /\ NewSession E region = None
    /\ a = constructed E region parsedURL arn.
Proof.
  unfold NewAWSAuth. fold (resolved_endpoint E cerberusURL).
  destruct (String.length region =? 0)%nat eqn:Hr; [discriminate|].
  destruct (String.length (resolved_endpoint E cerberusURL) =? 0)%nat;
    [discriminate|].
  destruct (ValidateURL E (resolved_endpoint E cerberusURL)) as [err|u];
    [discriminate|].
  destruct (NewSession E region) as [msg|]; [discriminate|].
  destruct (IAMInfo E region) as [e|arn]; [discriminate|].
  intros H. inversion H; subst. split.
  - intros ->. discriminate Hr.
  - exists u, arn. auto.
Qed.

(** X1.  The instance [NewAWSAuth] returns holds no token and exactly
    the two headers [X-Cerberus-Client] and [Content-Type], keeps the
    region and the URL that [ValidateURL] returned for the endpoint in
    force, names the role derived from the instance profile, and is not
    authenticated, whatever the clock shows. *)
Theorem X1_fresh_instance (E : Env) (cerberusURL rgn : string) (a : AWSAuth) :
  NewAWSAuth E cerberusURL rgn = Returns (inr a) ->
  token a = ""
  /\ region a = rgn
  /\ ValidateURL E (resolved_endpoint E cerberusURL) = inr (baseURL a)
  /\ (exists arn, IAMInfo E rgn = inr arn
        /\ roleARN a = Replace_first arn ":instance-profile/" ":role/")
  /\ kmsClient a = kms_New E rgn (roleARN a)
  /\ dom (headers a) = {[ "X-Cerberus-Client"; "Content-Type" ]}
  /\ headers a !! "X-Cerberus-Client" = Some [ClientHeader E]
  /\ headers a !! "Content-Type" = Some ["application/json"]
  /\ forall w, fst (IsAuthenticated (at_world a w)) = false.
Proof.
  intros Hnew.
  destruct (NewAWSAuth_inr E cerberusURL rgn a Hnew)
    as (_ & u & arn & Hv & Hi & _ & ->).
  unfold constructed. cbn [token region baseURL roleARN kmsClient headers].
  split; [reflexivity|]. split; [reflexivity|]. split; [exact Hv|].
  split; [exists arn; split; [exact Hi|reflexivity]|].
  split; [reflexivity|].
  split; [rewrite !dom_insert_L, dom_empty_L; set_solver|].
  split; [apply lookup_insert_eq|].
  split; [rewrite lookup_insert_ne by discriminate; apply lookup_insert_eq|].
  intros w. reflexivity.
Qed.

Lemma X1_fresh_instance_witness :
  NewAWSAuth happyEnv "https://test.example.com" "us-west-2" = Returns (inr happyAuth)
  /\ token happyAuth = ""
  /\ roleARN happyAuth = "arn:aws:iam::111111111:role/fake-role"
  /\ fst (IsAuthenticated (at_world happyAuth world0)) = false.
Proof.
  assert (Hnew : NewAWSAuth happyEnv "https://test.example.com" "us-west-2"
                 = Returns (inr happyAuth)) by reflexivity.
  destruct (X1_fresh_instance happyEnv "https://test.example.com" "us-west-2"
              happyAuth Hnew)
    as (Ht & _ & _ & _ & _ & _ & _ & _ & Hlive).
  split; [exact Hnew|]. split; [exact Ht|]. split; [reflexivity|].
  apply Hlive.
Defined.

(** X2.  What [NewAWSAuth] does when it does not succeed follows the
    order of its statements: an empty region is reported first, whatever
    the endpoint; then an empty endpoint in force; then the error of
    [ValidateURL]; past these, a session that could not be created makes
    the call panic, whatever the instance metadata would answer; and with
    a session, the error of the instance metadata is returned. *)
Theorem X2_construction_errors (E : Env) (cerberusURL region : string) :
  (region = "" ->
   NewAWSAuth E cerberusURL region
   = Returns (inl (Errorf "Region should not be nil")))
  /\ (region <> "" -> resolved_endpoint E cerberusURL = "" ->
      NewAWSAuth E cerberusURL region
      = Returns (inl (Errorf "Cerberus URL cannot be empty")))
  /\ (forall err,
        region <> "" -> resolved_endpoint E cerberusURL <> "" ->
        ValidateURL E (resolved_endpoint E cerberusURL) = inl err ->
        NewAWSAuth E cerberusURL region = Returns (inl (Errorf err)))
  /\ (forall u msg,
        region <> "" -> resolved_endpoint E cerberusURL <> "" ->
        ValidateURL E (resolved_endpoint E cerberusURL) = inr u ->
        NewSession E region = Some msg ->
        NewAWSAuth E cerberusURL region = Panics)
  /\ (forall u e,
        region <> "" -> resolved_endpoint E cerberusURL <> "" ->
        ValidateURL E (resolved_endpoint E cerberusURL) = inr u ->
        NewSession E region = None ->
        IAMInfo E region = inl e ->
        NewAWSAuth E cerberusURL region = Returns (inl (Errorf e))).
Proof.
  assert (Hlen : forall s : string, s <> "" -> (String.length s =? 0)%nat = false).
  { intros [|c s] Hs; [congruence|reflexivity]. }
  unfold NewAWSAuth. fold (resolved_endpoint E cerberusURL).
  split; [|split; [|split; [|split]]].
  - intros ->. reflexivity.
  - intros Hr Hu. rewrite (Hlen _ Hr), Hu. reflexivity.
  - intros err Hr Hu Hv. rewrite (Hlen _ Hr), (Hlen _ Hu), Hv. reflexivity.
  - intros u msg Hr Hu Hv Hs. rewrite (Hlen _ Hr), (Hlen _ Hu), Hv, Hs.
    reflexivity.
  - intros u e Hr Hu Hv Hs Hi.
    rewrite (Hlen _ Hr), (Hlen _ Hu), Hv, Hs, Hi. reflexivity.
Qed.

Example construction_without_session :
  NewAWSAuth noSessionEnv "https://test.example.com" "us-west-2" = Panics
  /\ NewAWSAuth noSessionEnv "https://test.example.com" ""
     = Returns (inl (Errorf "Region should not be nil"))
  /\ NewAWSAuth noMetadataEnv "https://test.example.com" "us-west-2"
     = Returns (inl (Errorf "EC2MetadataRequestError")).
Proof. repeat split. Qed.

(** X3.  When [CERBERUS_URL] is set, the endpoint argument plays no part:
    any two arguments give the same result. *)
Theorem X3_environment_overrides (E : Env) (url1 url2 region : string) :
  Getenv E "CERBERUS_URL" <> "" ->
  NewAWSAuth E url1 region = NewAWSAuth E url2 region.
Proof.
  intros Henv. unfold NewAWSAuth.
  destruct (Getenv E "CERBERUS_URL") as [|c v]; [congruence|]. reflexivity.
Qed.

Lemma X3_environment_overrides_witness :
  Getenv overrideEnv "CERBERUS_URL" <> ""
  /\ NewAWSAuth overrideEnv "" "us-west-2"
     = NewAWSAuth overrideEnv "https://other.example.com/a/path" "us-west-2".
Proof.
  assert (Henv : Getenv overrideEnv "CERBERUS_URL" <> "") by discriminate.
  split; [exact Henv|].
  exact (X3_environment_overrides overrideEnv ""
           "https://other.example.com/a/path" "us-west-2" Henv).
Defined.

(** ** The role ARN: strings.Replace with a count of one *)

Lemma strip_prefix_app (old q : string) : strip_prefix old (old +:+ q) = Some q.
Proof.
  induction old as [|c old IH]; [destruct q; reflexivity|].
  change (strip_prefix (String c old) (String c (old +:+ q)) = Some q).
  cbn [strip_prefix]. rewrite Ascii.eqb_refl. exact IH.
Qed.

Lemma strip_prefix_Some (old s r : string) :
  strip_prefix old s = Some r -> s = old +:+ r.
Proof.
  revert s. induction old as [|c old IH]; intros s H.
  - destruct s; cbn in H; inversion H; reflexivity.
  - destruct s as [|d s]; [discriminate H|]. cbn [strip_prefix] in H.
    destruct (Ascii.eqb c d) eqn:Hcd; [|discriminate H].
    apply Ascii.eqb_eq in Hcd. subst d.
    change (String c s = String c (old +:+ r)). f_equal. apply IH. exact H.
Qed.

(** X4.  [Replace_first] is [strings.Replace] with a count of one: a
    string in which [old] does not occur comes back as it is; otherwise
    the string splits at the first occurrence into a part before and a
    part after, and the result is the first part, [new] and the last
    part. *)
Theorem X4_Replace_first (s old new : string) :
  match strings_Index s old with
  | None => Replace_first s old new = s
  | Some i =>
    exists p q : string,
      s = p +:+ old +:+ q
      /\ String.length p = i
      /\ Replace_first s old new = p +:+ new +:+ q
  end.
Proof.
  induction s as [|c s IH].
  - cbn [strings_Index Replace_first].
    destruct (strip_prefix old "") as [r|] eqn:Hp; [|reflexivity].
    exists "", r. split; [|split; reflexivity].
    exact (strip_prefix_Some old "" r Hp).
  - cbn [strings_Index Replace_first].
    destruct (strip_prefix old (String c s)) as [r|] eqn:Hp.
    + exists "", r. split; [|split; reflexivity].
      exact (strip_prefix_Some old (String c s) r Hp).
    + destruct (strings_Index s old) as [i|]; cbn [option_map].
      * destruct IH as (p & q & Hs & Hlen & Hrep).
        exists (String c p), q. split; [|split].
        -- rewrite Hs at 1. reflexivity.
        -- cbn [String.length]. rewrite Hlen. reflexivity.
        -- rewrite Hrep. reflexivity.
      * rewrite IH. reflexivity.
Qed.

Example role_of_instance_profile :
  Replace_first "arn:aws:iam::1:instance-profile/a:instance-profile/b"
    ":instance-profile/" ":role/"
  = "arn:aws:iam::1:role/a:instance-profile/b"
  /\ Replace_first "arn:aws:iam::1:user/bob" ":instance-profile/" ":role/"
     = "arn:aws:iam::1:user/bob".
Proof. split; reflexivity. Qed.

(** ** What the methods keep *)

(** Each method leaves the receiver as it was or ends with the
    assignments of a successful exchange or of a successful logout. *)
Lemma authenticate_self (E : Env) (s : State) :
  self (snd (authenticate E s)) = self s
  \/ exists r t, self (snd (authenticate E s)) = authenticated r t (self s).
Proof.
  rewrite authenticate_eq. cbv zeta.
  repeat match goal with
         | |- context [match ?x with _ => _ end] => destruct x
         end; cbn [snd self]; eauto.
Qed.

Lemma GetToken_self (E : Env) (s : State) :
  self (snd (GetToken E s)) = self s
  \/ exists r t, self (snd (GetToken E s)) = authenticated r t (self s).
Proof.
  rewrite GetToken_eq.
  destruct (fst (IsAuthenticated s)); [left; reflexivity|].
  pose proof (authenticate_self E s) as H.
  destruct (authenticate E s) as [err s']. exact H.
Qed.

Lemma Logout_self (E : Env) (s : State) :
  self (snd (AWSAuth_Logout E s)) = self s
  \/ self (snd (AWSAuth_Logout E s)) = logged_out (self s).
Proof.
  rewrite AWSAuth_Logout_eq. cbv zeta.
  repeat match goal with
         | |- context [match ?x with _ => _ end] => destruct x
         end; cbn [snd self]; eauto.
Qed.

(** An induction principle for the instances in use: what holds of a
    constructed instance and survives the two ways the receiver is
    written holds of every instance. *)
Lemma reachable_inv (E : Env) (P : AWSAuth -> Prop) :
  (forall rgn u arn url,
     rgn <> "" -> ValidateURL E url = inr u -> P (constructed E rgn u arn)) ->
  (forall a r t, P a -> P (authenticated r t a)) ->
  (forall a, P a -> P (logged_out a)) ->
  forall a, reachable E a -> P a.
Proof.
  intros Hnew Hauth Hout a Hreach.
  induction Hreach as [cerberusURL rgn a Hc | a w _ IH | a w _ IH | a w _ IH].
  - destruct (NewAWSAuth_inr E cerberusURL rgn a Hc)
      as (Hr & u & arn & Hv & _ & _ & ->).
    eapply Hnew; eassumption.
  - destruct (GetToken_self E {| self := a; world := w |}) as [Heq | (r & t & Heq)];
      rewrite Heq; cbn [self]; auto.
  - unfold Refresh.
    destruct (authenticate_self E {| self := a; world := w |}) as [Heq | (r & t & Heq)];
      rewrite Heq; cbn [self]; auto.
  - destruct (Logout_self E {| self := a; world := w |}) as [Heq | Heq];
      rewrite Heq; cbn [self]; auto.
Qed.

Lemma tokenHeld_reachable : reachable happyEnv (self tokenHeld).
Proof.
  apply (reach_GetToken happyEnv happyAuth world0).
  apply (reach_NewAWSAuth happyEnv "https://test.example.com" "us-west-2").
  reflexivity.
Qed.

(** The session-token header is absent while no token is held and holds
    the token, alone, otherwise. *)
Lemma session_header_invariant (E : Env) (a : AWSAuth) :
  reachable E a ->
  (token a = "" /\ headers a !! "X-Vault-Token" = None)
  \/ headers a !! "X-Vault-Token" = Some [token a].
Proof.
  revert a. apply reachable_inv.
  - intros rgn u arn url _ _. left. split; reflexivity.
  - intros a r t _. right. unfold authenticated, Header_Set.
    cbn [headers token set_expiry set_headers set_token].
    apply lookup_insert_eq.
  - intros a _. left. unfold logged_out, Header_Del.
    cbn [headers token set_headers set_token].
    split; [reflexivity|apply lookup_delete_eq].
Qed.

(** X5.  On every instance in use the session-token header agrees with
    the token: [X-Vault-Token] reads as the token held, and as the empty
    string, the header being absent, when none is held. *)
Theorem X5_session_header_is_token (E : Env) (a : AWSAuth) :
  reachable E a ->
  Header_Get "X-Vault-Token" (headers a) = token a
  /\ (headers a !! "X-Vault-Token" = None
      \/ headers a !! "X-Vault-Token" = Some [token a]).
Proof.
  intros Hreach. unfold Header_Get.
  destruct (session_header_invariant E a Hreach) as [[Htok Hnone] | Hsome].
  - rewrite Hnone, Htok. split; [reflexivity|left; reflexivity].
  - rewrite Hsome. split; [reflexivity|right; reflexivity].
Qed.

Lemma X5_session_header_is_token_witness :
  reachable happyEnv (self tokenHeld)
  /\ Header_Get "X-Vault-Token" (headers (self tokenHeld)) = "a-cool-token"
  /\ token (self tokenHeld) = "a-cool-token".
Proof.
  pose proof tokenHeld_reachable as Hr.
  destruct (X5_session_header_is_token happyEnv (self tokenHeld) Hr) as [Hget _].
  split; [exact Hr|]. split; [|reflexivity].
  rewrite Hget. reflexivity.
Defined.

(** X6.  No instance in use ever carries a header other than
    [X-Cerberus-Client], [Content-Type] and [X-Vault-Token], and its
    [Content-Type] stays [application/json]. *)
Theorem X6_headers_bounded (E : Env) (a : AWSAuth) :
  reachable E a ->
  dom (headers a) ⊆ written_headers
  /\ headers a !! "Content-Type" = Some ["application/json"].
Proof.
  revert a. apply reachable_inv.
  - intros rgn u arn url _ _. unfold constructed, written_headers.
    cbn [headers]. split.
    + rewrite !dom_insert_L, dom_empty_L. set_solver.
    + rewrite lookup_insert_ne by discriminate. apply lookup_insert_eq.
  - intros a r t [Hdom Hct]. unfold authenticated, Header_Set.
    cbn [headers set_expiry set_headers set_token]. split.
    + rewrite dom_insert_L. unfold written_headers in *. set_solver.
    + rewrite lookup_insert_ne by discriminate. exact Hct.
  - intros a [Hdom Hct]. unfold logged_out, Header_Del.
    cbn [headers set_headers set_token]. split.
    + rewrite dom_delete_L. set_solver.
    + rewrite lookup_delete_ne by discriminate. exact Hct.
Qed.

Lemma X6_headers_bounded_witness :
  reachable happyEnv (self tokenHeld)
  /\ dom (headers (self tokenHeld)) ⊆ written_headers
  /\ headers (self tokenHeld) !! "Content-Type" = Some ["application/json"].
Proof.
  pose proof tokenHeld_reachable as Hr.
  split; [exact Hr|].
  exact (X6_headers_bounded happyEnv (self tokenHeld) Hr).
Defined.

Lemma authenticated_identity (r : IAMAuthResponse) (t : Z) (a : AWSAuth) :
  same_identity (authenticated r t a) a.
Proof. repeat split. Qed.

Lemma logged_out_identity (a : AWSAuth) : same_identity (logged_out a) a.
Proof. repeat split. Qed.

Lemma same_identity_refl (a : AWSAuth) : same_identity a a.
Proof. repeat split. Qed.

(** X7.  [GetToken], [Refresh] and [Logout] never write the region, the
    role ARN, the base URL or the key-management client of the receiver,
    whatever the outside answers. *)
Theorem X7_identity_is_kept (E : Env) (s : State) :
  same_identity (self (snd (GetToken E s))) (self s)
  /\ same_identity (self (snd (Refresh E s))) (self s)
  /\ same_identity (self (snd (AWSAuth_Logout E s))) (self s).
Proof.
  split; [|split].
  - destruct (GetToken_self E s) as [Heq | (r & t & Heq)]; rewrite Heq;
      auto using same_identity_refl, authenticated_identity.
  - unfold Refresh.
    destruct (authenticate_self E s) as [Heq | (r & t & Heq)]; rewrite Heq;
      auto using same_identity_refl, authenticated_identity.
  - destruct (Logout_self E s) as [Heq | Heq]; rewrite Heq;
      auto using same_identity_refl, logged_out_identity.
Qed.

(** X8.  The base URL of every instance in use, which is what [GetURL]
    returns, is a URL that [ValidateURL] returned, and its region is not
    empty: the checks of the constructor still hold after any sequence
    of calls. *)
Theorem X8_GetURL_validated (E : Env) (a : AWSAuth) (w : World) :
  reachable E a ->
  GetURL (at_world a w) = (baseURL a, at_world a w)
  /\ region a <> ""
  /\ exists url, ValidateURL E url = inr (baseURL a).
Proof.
  intros Hreach. split; [reflexivity|].
  revert a Hreach. apply reachable_inv.
  - intros rgn u arn url Hr Hv. cbn [region baseURL constructed]. eauto.
  - intros a r t IH. exact IH.
  - intros a IH. exact IH.
Qed.

Lemma X8_GetURL_validated_witness :
  reachable happyEnv (self tokenHeld)
  /\ fst (GetURL (at_world (self tokenHeld) world0)) = testURL
  /\ region (self tokenHeld) <> "".
Proof.
  pose proof tokenHeld_reachable as Hr.
  destruct (X8_GetURL_validated happyEnv (self tokenHeld) world0 Hr)
    as (Hget & Hregion & _).
  split; [exact Hr|]. split; [|exact Hregion].
  rewrite Hget. reflexivity.
Defined.

(** ** The exchange, return value by return value *)

(** X9.  [authenticate] returns no error exactly when every step of the
    exchange goes through: the request is built and answered 200, the
    body decodes, its data is base64, the decryption succeeds and the
    plaintext parses as an envelope. *)
Theorem X9_nil_iff_exchange_succeeds (E : Env) (s : State) :
  fst (authenticate E s) = None <-> exists r, auth_succeeds E s r.
Proof.
  split.
  - intros Hnil.
    destruct (exchange_outcome E s) as [[f Hf] | Hok]; [|exact Hok].
    destruct (auth_fails_returns_error E s f Hf) as (e & s' & Hrun).
    rewrite Hrun in Hnil. discriminate Hnil.
  - intros [r Hok].
    destruct (auth_succeeds_eq E s r Hok) as [blob Hrun]. cbv zeta in Hrun.
    rewrite Hrun. reflexivity.
Qed.

Lemma unauthorized_status (code : Z) :
  (code =? StatusUnauthorized) || (code =? StatusForbidden) = true <->
  code = StatusUnauthorized \/ code = StatusForbidden.
Proof. rewrite orb_true_iff, !Z.eqb_eq. reflexivity. Qed.

(** X10.  [authenticate] returns [ErrorUnauthorized] exactly when the
    request was answered with status 401 or 403; no other failure is
    reported with that value. *)
Theorem X10_unauthorized_iff_401_403 (E : Env) (s : State) :
  fst (authenticate E s) = Some ErrorUnauthorized <->
  exists resp,
    answered E s resp
    /\ (StatusCode resp = StatusUnauthorized \/ StatusCode resp = StatusForbidden).
Proof.
  split.
  - rewrite authenticate_eq. cbv zeta.
    destruct (NewRequest_err E "POST" (ReqURL (authRequest E (self s)))) eqn:Hn;
      [discriminate|].
    destruct (RoundTrip E (world s) (authRequest E (self s))) as [msg|resp] eqn:Hr;
      [discriminate|].
    destruct ((StatusCode resp =? StatusUnauthorized)
              || (StatusCode resp =? StatusForbidden)) eqn:Hc.
    + intros _. exists resp. split; [split; assumption|].
      apply unauthorized_status. exact Hc.
    + repeat match goal with
             | |- context [match ?x with _ => _ end] => destruct x
             end; discriminate.
  - intros (resp & Ha & Hcode).
    rewrite (authenticate_eq_status E s resp Ha).
    + apply unauthorized_status in Hcode. rewrite Hcode. reflexivity.
    + unfold StatusOK, StatusUnauthorized, StatusForbidden in *. lia.
Qed.

Lemma authenticate_not_unauthenticated (E : Env) (s : State) :
  fst (authenticate E s) <> Some ErrorUnauthenticated.
Proof.
  rewrite authenticate_eq. cbv zeta.
  repeat match goal with
         | |- context [match ?x with _ => _ end] => destruct x
         end; discriminate.
Qed.

(** X11.  With their guards commented out, [GetToken], [Refresh] and
    [GetHeaders] never return [ErrorUnauthenticated]; [GetHeaders]
    returns the headers of the receiver and no error at all, also on an
    instance that holds no token, and writes nothing. *)
Theorem X11_never_unauthenticated (E : Env) (s : State) :
  snd (fst (GetToken E s)) <> Some ErrorUnauthenticated
  /\ fst (Refresh E s) <> Some ErrorUnauthenticated
  /\ GetHeaders s = ((headers (self s), None), s).
Proof.
  split; [|split; [apply authenticate_not_unauthenticated|reflexivity]].
  rewrite GetToken_eq.
  destruct (fst (IsAuthenticated s)); [discriminate|].
  pose proof (authenticate_not_unauthenticated E s) as H.
  destruct (authenticate E s) as [err s']. exact H.
Qed.

(** X12.  The key-management client is called only after a 200 whose
    body decoded, and what it is given is the base64 decoding of
    [auth_data]: in that case the record of decryptions grows by that
    blob, in every other case it does not change. *)
Theorem X12_decrypt_only_decoded_data (E : Env) (s : State) :
  (forall resp i blob,
     answered E s resp ->
     StatusCode resp = StatusOK ->
     Decode_iamIntermediateResp E (Body resp) = inr i ->
     base64_DecodeString E (AuthData i) = inr blob ->
     decrypted (world (snd (authenticate E s)))
     = (decrypted (world s) ++ [blob])%list)
  /\ (decrypted (world (snd (authenticate E s))) <> decrypted (world s) ->
      exists resp i blob,
        answered E s resp
        /\ StatusCode resp = StatusOK
        /\ Decode_iamIntermediateResp E (Body resp) = inr i
        /\ base64_DecodeString E (AuthData i) = inr blob).
Proof.
  split.
  - intros resp i blob Ha Hcode Hd Hb.
    rewrite (authenticate_eq_ok E s resp Ha Hcode). cbv zeta.
    rewrite Hd, Hb.
    destruct (Decrypt (kmsClient (self s)) blob) as [msg|plaintext];
      [reflexivity|].
    destruct (Unmarshal_IAMAuthResponse E plaintext); reflexivity.
  - rewrite authenticate_eq. cbv zeta.
    destruct (NewRequest_err E "POST" (ReqURL (authRequest E (self s)))) eqn:Hn;
      [intros H; contradiction H; reflexivity|].
    destruct (RoundTrip E (world s) (authRequest E (self s))) as [msg|resp] eqn:Hr;
      [intros H; contradiction H; reflexivity|].
    destruct ((StatusCode resp =? StatusUnauthorized)
              || (StatusCode resp =? StatusForbidden));
      [intros H; contradiction H; reflexivity|].
    destruct (negb (StatusCode resp =? StatusOK)) eqn:Hc;
      [intros H; contradiction H; reflexivity|].
    destruct (Decode_iamIntermediateResp E (Body resp)) as [msg|i] eqn:Hd;
      [intros H; contradiction H; reflexivity|].
    destruct (base64_DecodeString E (AuthData i)) as [msg|blob] eqn:Hb;
      [intros H; contradiction H; reflexivity|].
    intros _. exists resp, i, blob.
    split; [split; assumption|]. split; [|split; [exact Hd|exact Hb]].
    apply negb_false_iff, Z.eqb_eq in Hc. exact Hc.
Qed.

(** X13.  [Refresh] does not look at the token it holds: on an instance
    whose token is live it still sends the request, where [GetToken]
    sends nothing. *)
Theorem X13_refresh_ignores_liveness (E : Env) (s : State) :
  fst (IsAuthenticated s) = true ->
  accepted E (self s) ->
  sent (world (snd (Refresh E s)))
  = (sent (world s) ++ [authRequest E (self s)])%list
  /\ sent (world (snd (GetToken E s))) = sent (world s).
Proof.
  intros Hlive Hacc. split.
  - unfold Refresh. apply authenticate_sent. exact Hacc.
  - rewrite GetToken_eq, Hlive. reflexivity.
Qed.

Lemma X13_refresh_ignores_liveness_witness :
  fst (IsAuthenticated tokenHeld) = true
  /\ accepted happyEnv (self tokenHeld)
  /\ sent (world (snd (Refresh happyEnv tokenHeld)))
     = [authRequest happyEnv happyAuth; authRequest happyEnv (self tokenHeld)]
  /\ sent (world (snd (GetToken happyEnv tokenHeld))) = [authRequest happyEnv happyAuth].
Proof.
  assert (Hlive : fst (IsAuthenticated tokenHeld) = true) by reflexivity.
  assert (Hacc : accepted happyEnv (self tokenHeld)) by reflexivity.
  split; [exact Hlive|]. split; [exact Hacc|].
  exact (X13_refresh_ignores_liveness happyEnv tokenHeld Hlive Hacc).
Defined.

(** X14.  The request of a re-authentication carries the headers of the
    receiver as they are: on an instance in use that holds a token, live
    or not, the POST goes out with that token in [X-Vault-Token]. *)
Theorem X14_reauthentication_sends_token (E : Env) (a : AWSAuth) :
  reachable E a ->
  token a <> "" ->
  ReqHeader (authRequest E a) !! "X-Vault-Token" = Some [token a].
Proof.
  intros Hreach Htok. cbn [authRequest ReqHeader].
  destruct (session_header_invariant E a Hreach) as [[Hempty _] | Hsome].
  - contradiction.
  - exact Hsome.
Qed.

Lemma X14_reauthentication_sends_token_witness :
  reachable happyEnv (self tokenHeld)
  /\ token (self tokenHeld) <> ""
  /\ ReqHeader (authRequest happyEnv (self tokenHeld)) !! "X-Vault-Token"
     = Some ["a-cool-token"].
Proof.
  pose proof tokenHeld_reachable as Hr.
  assert (Htok : token (self tokenHeld) <> "") by discriminate.
  split; [exact Hr|]. split; [exact Htok|].
  exact (X14_reauthentication_sends_token happyEnv (self tokenHeld) Hr Htok).
Defined.

(** ** After a logout *)

Lemma Logout_nil_self (E : Env) (s s' : State) :
  AWSAuth_Logout E s = (None, s') -> self s' = logged_out (self s).
Proof.
  rewrite AWSAuth_Logout_eq. cbv zeta.
  repeat match goal with
         | |- context [match ?x with _ => _ end] => destruct x
         end; intros H; inversion H; reflexivity.
Qed.

(** X15.  A [Logout] that returns no error empties the token and takes
    [X-Vault-Token], and nothing else, out of the headers; it leaves the
    expiry where it was, and yet the instance is not authenticated at
    any instant, since the token is empty. *)
Theorem X15_after_logout (E : Env) (s s' : State) :
  AWSAuth_Logout E s = (None, s') ->
  token (self s') = ""
  /\ expiry (self s') = expiry (self s)
  /\ headers (self s') = delete "X-Vault-Token" (headers (self s))
  /\ forall w, fst (IsAuthenticated (at_world (self s') w)) = false.
Proof.
  intros Hrun. rewrite (Logout_nil_self E s s' Hrun).
  repeat split.
Qed.

Lemma X15_after_logout_witness :
  AWSAuth_Logout (statusEnv StatusNoContent) (benchState loggedInAuth)
  = (None, snd (AWSAuth_Logout (statusEnv StatusNoContent) (benchState loggedInAuth)))
  /\ expiry (self (snd (AWSAuth_Logout (statusEnv StatusNoContent)
                          (benchState loggedInAuth)))) = 100000
  /\ fst (IsAuthenticated (benchState loggedInAuth)) = true
  /\ fst (IsAuthenticated
            (at_world (self (snd (AWSAuth_Logout (statusEnv StatusNoContent)
                                    (benchState loggedInAuth)))) world0)) = false.
Proof.
  assert (Hrun : AWSAuth_Logout (statusEnv StatusNoContent) (benchState loggedInAuth)
                 = (None, snd (AWSAuth_Logout (statusEnv StatusNoContent)
                                 (benchState loggedInAuth)))) by reflexivity.
  destruct (X15_after_logout _ _ _ Hrun) as (_ & Hexp & _ & Hlive).
  split; [exact Hrun|]. split; [rewrite Hexp; reflexivity|].
  split; [reflexivity|]. apply Hlive.
Defined.

(** X16.  Nothing stops a second [Logout]: after one that succeeded the
    next sends its DELETE without any [X-Vault-Token], and when that one
    succeeds too the receiver is what the first left. *)
Theorem X16_second_logout (E : Env) (s s1 : State) :
  AWSAuth_Logout E s = (None, s1) ->
  ReqHeader (logoutRequest (self s1)) !! "X-Vault-Token" = None
  /\ sent (world (snd (AWSAuth_Logout E s1)))
     = (sent (world s) ++ [logoutRequest (self s); logoutRequest (self s1)])%list
  /\ forall s2, AWSAuth_Logout E s1 = (None, s2) -> self s2 = self s1.
Proof.
  intros Hrun. pose proof (Logout_nil_self E s s1 Hrun) as Hself.
  split; [|split].
  - rewrite Hself. unfold logged_out, Header_Del.
    cbn [logoutRequest ReqHeader headers set_headers set_token].
    apply lookup_delete_eq.
  - assert (Hs1 : sent (world s1)
                  = (sent (world s) ++ [logoutRequest (self s)])%list).
    { revert Hrun. rewrite AWSAuth_Logout_eq. cbv zeta.
      repeat match goal with
             | |- context [match ?x with _ => _ end] => destruct x
             end; intros H; inversion H; reflexivity. }
    rewrite (AWSAuth_Logout_eq E s1). cbv zeta.
    repeat match goal with
           | |- context [match ?x with _ => _ end] => destruct x
           end; cbn [snd world after_Do sent]; rewrite Hs1, <- app_assoc;
      reflexivity.
  - intros s2 Hrun2. rewrite (Logout_nil_self E s1 s2 Hrun2), Hself.
    unfold logged_out, Header_Del.
    cbn [headers token region roleARN expiry baseURL kmsClient
         set_headers set_token].
    rewrite delete_delete_eq. reflexivity.
Qed.

Lemma X16_second_logout_witness :
  AWSAuth_Logout (statusEnv StatusNoContent) (benchState loggedInAuth)
  = (None, snd (AWSAuth_Logout (statusEnv StatusNoContent) (benchState loggedInAuth)))
  /\ ReqHeader (logoutRequest
                  (self (snd (AWSAuth_Logout (statusEnv StatusNoContent)
                                (benchState loggedInAuth)))))
       !! "X-Vault-Token" = None
  /\ ReqHeader (logoutRequest loggedInAuth) !! "X-Vault-Token" = Some ["c3po"].
Proof.
  assert (Hrun : AWSAuth_Logout (statusEnv StatusNoContent) (benchState loggedInAuth)
                 = (None, snd (AWSAuth_Logout (statusEnv StatusNoContent)
                                 (benchState loggedInAuth)))) by reflexivity.
  destruct (X16_second_logout _ _ _ Hrun) as (Hhdr & _ & _).
  split; [exact Hrun|]. split; [exact Hhdr|reflexivity].
Defined.

(** ** After an exchange *)

Lemma wrap64_range (z : Z) : - 2 ^ 63 <= wrap64 z < 2 ^ 63.
Proof.
  unfold wrap64.
  pose proof (Z.mod_pos_bound (z + 2 ^ 63) (2 ^ 64) ltac:(lia)). lia.
Qed.

Lemma GetToken_exchange (E : Env) (s : State) (r : IAMAuthResponse) :
  fst (IsAuthenticated s) = false ->
  auth_succeeds E s r ->
  exists s',
    GetToken E s = ((Token r, None), s')
    /\ authenticate E s = (None, s')
    /\ token (self s') = Token r
    /\ expiry (self s') = now (world s') + Duration_mul (Duration r) Second.
Proof.
  intros Hdead Hok.
  destruct (auth_succeeds_eq E s r Hok) as [blob Hrun]. cbv zeta in Hrun.
  eexists. rewrite GetToken_eq, Hdead, Hrun.
  repeat split.
Qed.

(** X17.  When the token is not live and the exchange goes through,
    [GetToken] returns the token of the envelope without error; and when
    that token is not empty and the lease is positive and at most
    9223372036 seconds, the instance is authenticated from that instant
    until the lease has run out. *)
Theorem X17_getToken_authenticates (E : Env) (s : State) (r : IAMAuthResponse) :
  fst (IsAuthenticated s) = false ->
  auth_succeeds E s r ->
  fst (GetToken E s) = (Token r, None)
  /\ (Token r <> "" ->
      0 < Duration r <= 9223372036 ->
      forall w,
        now w < now (world (snd (GetToken E s))) + Duration r * Second ->
        fst (IsAuthenticated (at_world (self (snd (GetToken E s))) w)) = true).
Proof.
  intros Hdead Hok.
  destruct (GetToken_exchange E s r Hdead Hok) as (s' & Hget & _ & Htok & Hexp).
  rewrite Hget. cbn [fst snd]. split; [reflexivity|].
  intros Hne Hlease w Hw.
  rewrite IsAuthenticated_eq. cbn [fst at_world self world].
  rewrite Htok, Hexp, lease_fits by lia.
  apply andb_true_iff. split.
  - apply token_nonempty. exact Hne.
  - apply Z.ltb_lt. exact Hw.
Qed.

Lemma X17_getToken_authenticates_witness :
  fst (IsAuthenticated (benchState happyAuth)) = false
  /\ auth_succeeds happyEnv (benchState happyAuth) coolEnvelope
  /\ fst (GetToken happyEnv (benchState happyAuth)) = ("a-cool-token", None)
  /\ fst (IsAuthenticated (at_world (self tokenHeld) (world tokenHeld))) = true.
Proof.
  assert (Hdead : fst (IsAuthenticated (benchState happyAuth)) = false)
    by reflexivity.
  assert (Hok : auth_succeeds happyEnv (benchState happyAuth) coolEnvelope).
  { exists {| StatusCode := StatusOK; Body := fakeAuthBody |},
      {| AuthData := fakeData |}, "This is a random string", awsResponseBody.
    repeat split. }
  destruct (X17_getToken_authenticates happyEnv (benchState happyAuth)
              coolEnvelope Hdead Hok) as [Hget Hlive].
  split; [exact Hdead|]. split; [exact Hok|]. split; [exact Hget|].
  apply Hlive; [discriminate | cbn; lia | vm_compute; reflexivity].
Defined.

(** X18.  A nil error from [GetToken] does not mean an authenticated
    instance: when the envelope's token is empty, or its lease is zero or
    negative (down to -9223372036 seconds), [GetToken] returns the token
    without error and the instance is not authenticated, then or at any
    later instant. *)
Theorem X18_nil_error_not_live (E : Env) (s : State) (r : IAMAuthResponse) :
  fst (IsAuthenticated s) = false ->
  auth_succeeds E s r ->
  Token r = "" \/ -9223372036 <= Duration r <= 0 ->
  fst (GetToken E s) = (Token r, None)
  /\ forall w,
       now (world (snd (GetToken E s))) <= now w ->
       fst (IsAuthenticated (at_world (self (snd (GetToken E s))) w)) = false.
Proof.
  intros Hdead Hok Hedge.
  destruct (GetToken_exchange E s r Hdead Hok) as (s' & Hget & _ & Htok & Hexp).
  rewrite Hget. cbn [fst snd]. split; [reflexivity|].
  intros w Hw. rewrite IsAuthenticated_eq. cbn [fst at_world self world].
  rewrite Htok, Hexp.
  destruct Hedge as [Hempty | Hlease].
  - rewrite Hempty. reflexivity.
  - rewrite lease_fits by lia. apply andb_false_iff. right.
    apply Z.ltb_ge. unfold Second. lia.
Qed.

Lemma X18_nil_error_not_live_witness :
  fst (IsAuthenticated (benchState happyAuth)) = false
  /\ auth_succeeds noLeaseEnv (benchState happyAuth) noLease
  /\ fst (GetToken noLeaseEnv (benchState happyAuth)) = ("a-cool-token", None)
  /\ fst (IsAuthenticated (snd (GetToken noLeaseEnv (benchState happyAuth)))) = false.
Proof.
  assert (Hdead : fst (IsAuthenticated (benchState happyAuth)) = false)
    by reflexivity.
  assert (Hok : auth_succeeds noLeaseEnv (benchState happyAuth) noLease).
  { exists {| StatusCode := StatusOK; Body := fakeAuthBody |},
      {| AuthData := fakeData |}, "This is a random string", awsResponseBody.
    repeat split. }
  assert (Hedge : Token noLease = "" \/ -9223372036 <= Duration noLease <= 0).
  { right. cbn. lia. }
  destruct (X18_nil_error_not_live noLeaseEnv (benchState happyAuth) noLease
              Hdead Hok Hedge) as [Hget Hlive].
  split; [exact Hdead|]. split; [exact Hok|]. split; [exact Hget|].
  apply (Hlive (world (snd (GetToken noLeaseEnv (benchState happyAuth))))).
  reflexivity.
Defined.

(** X19.  Whatever lease the envelope grants, the expiry a successful
    exchange writes lies within 2^63 nanoseconds of the instant of the
    write: no lease keeps the instance authenticated for more than about
    292 years. *)
Theorem X19_expiry_within_int64 (E : Env) (s : State) (r : IAMAuthResponse) :
  auth_succeeds E s r ->
  - 2 ^ 63 <= expiry (self (snd (authenticate E s)))
              - now (world (snd (authenticate E s))) < 2 ^ 63.
Proof.
  intros Hok.
  destruct (auth_succeeds_eq E s r Hok) as [blob Hrun]. cbv zeta in Hrun.
  rewrite Hrun. cbn [snd self world].
  unfold authenticated, Time_Add, Duration_mul.
  cbn [expiry set_expiry].
  pose proof (wrap64_range (Duration r * Second)). lia.
Qed.

Lemma X19_expiry_within_int64_witness :
  auth_succeeds longLeaseEnv (benchState happyAuth) longLease
  /\ - 2 ^ 63 <= expiry (self (snd (authenticate longLeaseEnv (benchState happyAuth))))
                 - now (world (snd (authenticate longLeaseEnv (benchState happyAuth))))
     < 2 ^ 63.
Proof.
  assert (Hok : auth_succeeds longLeaseEnv (benchState happyAuth) longLease).
  { exists {| StatusCode := StatusOK; Body := fakeAuthBody |},
      {| AuthData := fakeData |}, "This is a random string", awsResponseBody.
    repeat split. }
  split; [exact Hok|].
  exact (X19_expiry_within_int64 longLeaseEnv (benchState happyAuth) longLease Hok).
Defined.

(** X20.  On an instance fresh from [NewAWSAuth], a [GetToken] whose
    exchange fails returns the empty string with the error and leaves
    the instance unauthenticated and as it was built. *)
Theorem X20_fresh_getToken_failure (E : Env) (cerberusURL rgn : string)
    (a : AWSAuth) (w : World) (e : error) (s' : State) :
  NewAWSAuth E cerberusURL rgn = Returns (inr a) ->
  authenticate E (at_world a w) = (Some e, s') ->
  GetToken E (at_world a w) = (("", Some e), s')
  /\ self s' = a
  /\ fst (IsAuthenticated s') = false.
Proof.
  intros Hnew Hrun.
  destruct (NewAWSAuth_inr E cerberusURL rgn a Hnew)
    as (_ & u & arn & _ & _ & _ & ->).
  pose proof (authenticate_error_keeps_self E _ s' e Hrun) as Hself.
  cbn [at_world self] in Hself.
  assert (Hdead : fst (IsAuthenticated (at_world (constructed E rgn u arn) w))
                  = false) by reflexivity.
  rewrite GetToken_eq, Hdead, Hrun.
  split; [rewrite Hself; reflexivity|]. split; [exact Hself|].
  rewrite IsAuthenticated_eq, Hself. reflexivity.
Qed.

Lemma X20_fresh_getToken_failure_witness :
  NewAWSAuth (statusEnv 500) "https://test.example.com" "us-west-2" = Returns (inr happyAuth)
  /\ GetToken (statusEnv 500) (at_world happyAuth world0)
     = (("", Some (Errorf ("Error while trying to authenticate. Got HTTP response code "
                           +:+ pretty 500))),
        after_request (statusEnv 500) (at_world happyAuth world0)).
Proof.
  assert (Hnew : NewAWSAuth (statusEnv 500) "https://test.example.com" "us-west-2"
                 = Returns (inr happyAuth)) by reflexivity.
  split; [exact Hnew|].
  apply (X20_fresh_getToken_failure (statusEnv 500) "https://test.example.com"
           "us-west-2" happyAuth world0 _ _ Hnew).
  reflexivity.
Defined.
